(** * auth-server: request helpers, token validation and Cognito handlers

    A shallow embedding of [src/middleware/auth.ts], [src/handlers/token.ts],
    [src/handlers/user.ts] and [src/handlers/auth.ts], and the properties of
    the handlers that the specification states.

    The handlers are TypeScript compiled to JavaScript, so the data they see
    at run time is whatever [JSON.parse] and [jwt.decode] deliver: the model
    works on JavaScript values, not on the erased TypeScript interfaces. *)

From Stdlib Require Import ZArith QArith String Ascii List.
From stdpp Require Import base option strings list gmap pretty.

#[local] Set Warnings "-register-all".

Local Open Scope Z_scope.
Local Open Scope string_scope.
Local Open Scope list_scope.

(** ** JavaScript values *)

(** A JavaScript number: every finite double is a rational, so reading the
    finite case over [Q] makes [<] exact. *)
Inductive number : Type :=
  | NaN
  | NegInfinity
  | Finite (q : Q)
  | PosInfinity.

(** [a < b] on numbers; any comparison with [NaN] is false. *)
Definition number_lt (a b : number) : bool :=
  match a, b with
  | NaN, _ | _, NaN => false
  | _, NegInfinity => false
  | NegInfinity, _ => true
  | PosInfinity, _ => false
  | Finite _, PosInfinity => true
  | Finite x, Finite y => negb (Qle_bool y x)
  end.

Definition number_of_Z (z : Z) : number := Finite (inject_Z z).

(** Values: the JSON fragment, [undefined], and two kinds of host object
    (a [Date], and anything else that only the runtime can produce, such as
    the functions found on a prototype). In [VObj] the own properties are
    kept in insertion order; keys are unique in every object that
    [JSON.parse] or a handler builds, and a read takes the first entry. *)
Inductive value : Type :=
  | VUndefined
  | VNull
  | VBool (b : bool)
  | VNum (n : number)
  | VStr (s : string)
  | VArr (items : list value)
  | VObj (fields : list (string * value))
  | VDate (time : number)
  | VHost (tag : string).

(** What a [throw] carries: an [Error] instance (of any subclass) with its
    [name] and [message], or some other value. *)
Inductive thrown : Type :=
  | JsError (name message : string)
  | NonError (v : value).

Inductive result (A : Type) : Type :=
  | Ok (a : A)
  | Throw (e : thrown).
Arguments Ok {A} a.
Arguments Throw {A} e.

(** [new Error(message)] *)
Definition Error (message : string) : thrown := JsError "Error" message.

(** ToBoolean *)
Definition truthy (v : value) : bool :=
  match v with
  | VUndefined | VNull => false
  | VBool b => b
  | VNum NaN => false
  | VNum (Finite q) => negb (Qeq_bool q 0)
  | VNum _ => true
  | VStr s => negb (String.eqb s EmptyString)
  | VArr _ | VObj _ | VDate _ | VHost _ => true
  end.

Definition nullish (v : value) : bool :=
  match v with
  | VUndefined | VNull => true
  | _ => false
  end.

(** [v === s] for a string literal [s] *)
Definition strict_eq_string (v : value) (s : string) : bool :=
  match v with
  | VStr s' => String.eqb s' s
  | _ => false
  end.

(** [v !== undefined] *)
Definition is_defined (v : value) : bool :=
  match v with
  | VUndefined => false
  | _ => true
  end.

(** [a || b] *)
Definition js_or (a b : value) : value := if truthy a then a else b.

Fixpoint assoc (k : string) (fields : list (string * value)) : option value :=
  match fields with
  | [] => None
  | (k', v) :: rest => if String.eqb k' k then Some v else assoc k rest
  end.

Definition own_property (v : value) (k : string) : option value :=
  match v with
  | VObj fields => assoc k fields
  | _ => None
  end.

(** ** The runtime the handlers run on

    [JSON], the [jsonwebtoken] package and the language's own conversions
    are not code of this repository; the handlers are verified against any
    runtime of this shape. *)
Class Runtime : Type := {
  (** [JSON.parse(text)]; throws a [SyntaxError] on text that is not JSON *)
  JSON_parse : string -> result value;
  (** [JSON.stringify(data)] *)
  JSON_stringify : value -> string;
  (** [jwt.decode(token)] and, with [true], [jwt.decode(token, {complete: true})] *)
  jwt_decode : value -> bool -> result value;
  (** what a property read finds on a value that has no own data property
      of that name: the prototype chain, the indices and [length] of arrays
      and strings; [VUndefined] when there is nothing *)
  builtin_property : value -> string -> value;
  (** the message of the [TypeError] raised by reading a property of
      [null] or [undefined] *)
  nullish_read_message : value -> string -> string;
  (** ToNumber on a string *)
  StringToNumber : string -> number;
  (** ToNumber on an object (ToPrimitive, then ToNumber); may throw *)
  ObjectToNumber : value -> result number;
}.

(** ** Exceptions and the provider: the monad the handlers run in *)

(** Typed after the SDK's declarations: the SDK deserialises every response
    into these shapes. *)
Module Cognito.

Record AttributeType : Type := {
  Name : option string;
  Value : option string;
}.

Record AdminGetUserOutput : Type := {
  Username : option string;
  UserAttributes : option (list AttributeType);
  UserCreateDate : option number;
  UserLastModifiedDate : option number;
  Enabled : option bool;
  UserStatus : option string;
}.

Record AuthenticationResultType : Type := {
  AccessToken : option string;
  ExpiresIn : option number;
  TokenType : option string;
  RefreshToken : option string;
  IdToken : option string;
}.

Record AdminInitiateAuthOutput : Type := {
  AuthenticationResult : option AuthenticationResultType;
}.

(** The commands the handlers construct, indexed by the type of the
    response [send] resolves to. The fields filled from a request carry
    whatever value the request had. *)
Inductive command : Type -> Type :=
  | AdminGetUserCommand (UserPoolId Username : value)
      : command AdminGetUserOutput
  | AdminUpdateUserAttributesCommand (UserPoolId Username : value)
      (UserAttributes : list (string * value))
      : command unit
  | AdminDeleteUserCommand (UserPoolId Username : value)
      : command unit
  | AdminSetUserPasswordCommand (UserPoolId Username Password : value)
      (Permanent : bool)
      : command unit
  | AdminInitiateAuthCommand (UserPoolId ClientId : value)
      (AuthFlow : string) (AuthParameters : list (string * value))
      : command AdminInitiateAuthOutput
  | AdminCreateUserCommand (UserPoolId Username : value)
      (UserAttributes : list (string * value))
      (MessageAction : string) (TemporaryPassword : value)
      : command unit.

(** A command, forgetting its response type: an entry of the call log. *)
Inductive call : Type :=
  | Call {R : Type} (c : command R).

End Cognito.

(** The identity provider behind [cognitoClient.send]: it answers or
    rejects, and moves to a new state. *)
Class Provider : Type := {
  provider_state : Type;
  provider_send : forall R : Type,
    Cognito.command R -> provider_state -> result R * provider_state;
}.

#[global] Instance result_ret : MRet result := @Ok.
#[global] Instance result_bind : MBind result := fun A B f r =>
  match r with
  | Ok a => f a
  | Throw e => Throw e
  end.

(** ** Lambda events and responses *)

Module Lambda.

(** The two fields of [APIGatewayProxyEvent] the handlers read. A header
    that is not there reads as [undefined]. *)
Record APIGatewayProxyEvent : Type := {
  body : option string;
  headers : gmap string string;
}.

End Lambda.

Record ApiResponse : Type := {
  statusCode : Z;
  headers : gmap string string;
  body : string;
}.

(** ToBoolean on a [string | undefined] *)
Definition string_truthy (o : option string) : bool :=
  match o with
  | Some s => negb (String.eqb s EmptyString)
  | None => false
  end.

(** [s.substring(n)] *)
Fixpoint substring_from (n : nat) (s : string) : string :=
  match n, s with
  | O, _ => s
  | S n', String _ rest => substring_from n' rest
  | S _, EmptyString => EmptyString
  end.

(** [s.startsWith(p)] *)
Definition startsWith (s p : string) : bool := String.prefix p s.

(** [items.join(sep)] on strings *)
Definition join (sep : string) (items : list string) : string :=
  String.concat sep items.

Definition of_string (o : option string) : value :=
  match o with
  | Some s => VStr s
  | None => VUndefined
  end.

Definition of_number (o : option number) : value :=
  match o with
  | Some n => VNum n
  | None => VUndefined
  end.

Definition of_date (o : option number) : value :=
  match o with
  | Some t => VDate t
  | None => VUndefined
  end.

(** ** src/middleware/auth.ts *)

Section Middleware.
Context {rt : Runtime}.

(** What [v[k]] finds when [v] is neither [null] nor [undefined]: the own
    property, and failing that whatever the runtime supplies. *)
Definition property (v : value) (k : string) : value :=
  default (builtin_property v k) (own_property v k).

(** [v[k]] *)
Definition get (v : value) (k : string) : result value :=
  if nullish v then Throw (JsError "TypeError" (nullish_read_message v k))
  else Ok (property v k).

(** ToNumber *)
Definition ToNumber (v : value) : result number :=
  match v with
  | VUndefined => Ok NaN
  | VNull => Ok (number_of_Z 0)
  | VBool b => Ok (number_of_Z (if b then 1 else 0))
  | VNum n => Ok n
  | VStr s => Ok (StringToNumber s)
  | VArr _ | VObj _ | VDate _ | VHost _ => ObjectToNumber v
  end.

(** [v < n] where the right operand is a number *)
Definition js_lt (v : value) (n : number) : result bool :=
  x ← ToNumber v; Ok (number_lt x n).

Definition default_headers : gmap string string :=
  <["Content-Type" := "application/json"]>
  (<["Access-Control-Allow-Origin" := "*"]>
  (<["Access-Control-Allow-Headers" := "Content-Type,Authorization"]>
  (<["Access-Control-Allow-Methods" := "GET,POST,PUT,DELETE,OPTIONS"]> ∅))).

Definition createResponse (statusCode : Z) (data : value)
    (headers : gmap string string) : ApiResponse :=
  {| statusCode := statusCode;
     headers := headers ∪ default_headers;
     body := JSON_stringify data |}.

Definition createErrorResponse (statusCode : Z) (error message : string)
    (details : value) : ApiResponse :=
  createResponse statusCode
    (VObj [("error", VStr error); ("message", VStr message); ("details", details)])
    ∅.

Definition parseRequestBody (event : Lambda.APIGatewayProxyEvent) : result value :=
  (* event.body || '{}' *)
  let text :=
    match Lambda.body event with
    | Some s => if String.eqb s EmptyString then "{}" else s
    | None => "{}"
    end in
  match JSON_parse text with
  | Ok v => Ok v
  | Throw _ => Throw (Error "Invalid JSON in request body")
  end.

(** [event.headers.Authorization || event.headers.authorization] *)
Definition authHeader (event : Lambda.APIGatewayProxyEvent) : option string :=
  if string_truthy (Lambda.headers event !! "Authorization")
  then Lambda.headers event !! "Authorization"
  else Lambda.headers event !! "authorization".

Definition getAuthHeader (event : Lambda.APIGatewayProxyEvent) : result string :=
  match authHeader event with
  | Some s =>
      if String.eqb s EmptyString
      then Throw (Error "Authorization header is required")
      else if startsWith s "Bearer "
      then Ok (substring_from 7 s)
      else Throw (Error "Authorization header must be a Bearer token")
  | None => Throw (Error "Authorization header is required")
  end.

(** [requiredFields.filter(field => !dataObj[field])]: the callback reads
    a property, which throws when [data] is [null] or [undefined]. *)
Fixpoint missing_fields (data : value) (requiredFields : list string)
    : result (list string) :=
  match requiredFields with
  | [] => Ok []
  | field :: rest =>
      v ← get data field;
      missing ← missing_fields data rest;
      Ok (if truthy v then missing else field :: missing)
  end.

Definition validateRequiredFields (data : value) (requiredFields : list string)
    : result unit :=
  missingFields ← missing_fields data requiredFields;
  if (0 <? length missingFields)%nat
  then Throw (Error ("Missing required fields: " ++ join ", " missingFields))
  else Ok tt.

End Middleware.

(** ** The handlers' effects *)

Section Handlers.
Context {rt : Runtime} {idp : Provider}.

(** [process.env.USER_POOL_ID] and [process.env.USER_POOL_CLIENT_ID], read
    once when the module is loaded; [undefined] when the variable is unset. *)
Variables USER_POOL_ID USER_POOL_CLIENT_ID : value.

(** What a handler can touch besides its argument: the provider behind
    [cognitoClient], with a log of the commands sent to it, the error
    console and the clock. *)
Record world : Type := {
  cognito : provider_state;
  sent : list Cognito.call;
  stderr : list (string * thrown);
  Date_now : Z;
}.

(** An asynchronous computation: it resolves or rejects, and leaves a world. *)
Definition io (A : Type) : Type := world -> result A * world.

#[global] Instance io_ret : MRet io := fun A a w => (Ok a, w).
#[global] Instance io_bind : MBind io := fun A B f m w =>
  match m w with
  | (Ok a, w') => f a w'
  | (Throw e, w') => (Throw e, w')
  end.

(** A synchronous call that may throw. *)
Definition lift {A : Type} (r : result A) : io A := fun w => (r, w).

(** [await cognitoClient.send(command)] *)
Definition send {R : Type} (command : Cognito.command R) : io R := fun w =>
  let (r, p) := provider_send R command (cognito w) in
  (r, {| cognito := p;
         sent := sent w ++ [Cognito.Call command];
         stderr := stderr w;
         Date_now := Date_now w |}).

(** [Math.floor(Date.now() / 1000)] *)
Definition current_time : io number := fun w =>
  (Ok (number_of_Z (Date_now w / 1000)), w).

(** [console.error(label, error)] *)
Definition console_error (label : string) (error : thrown) (w : world) : world :=
  {| cognito := cognito w;
     sent := sent w;
     stderr := stderr w ++ [(label, error)];
     Date_now := Date_now w |}.

(** [try { body } catch (error) { console.error(label, error); return handler(error) }] *)
Definition try_catch (body : io ApiResponse) (label : string)
    (handler : thrown -> ApiResponse) : io ApiResponse := fun w =>
  match body w with
  | (Ok response, w') => (Ok response, w')
  | (Throw error, w') => (Ok (handler error), console_error label error w')
  end.

(** [error instanceof Error ? error.message : 'Unknown error'] *)
Definition errorMessage (error : thrown) : string :=
  match error with
  | JsError _ message => message
  | NonError _ => "Unknown error"
  end.

Definition internal_error (error : thrown) : ApiResponse :=
  createErrorResponse 500 "INTERNAL_ERROR" "Internal server error"
    (VStr (errorMessage error)).

(** ** src/handlers/token.ts *)

Definition validate_try (event : Lambda.APIGatewayProxyEvent) : io ApiResponse :=
  body ← lift (parseRequestBody event);
  token ← lift (get body "token");
  if negb (truthy token)
  then mret (createErrorResponse 400 "MISSING_TOKEN" "Token is required" VUndefined)
  else
  decodedHeader ← lift (jwt_decode token true);
  if negb (truthy decodedHeader)
  then mret (createErrorResponse 401 "INVALID_TOKEN" "Invalid token format" VUndefined)
  else
  decoded ← lift (jwt_decode token false);
  if negb (truthy decoded)
  then mret (createErrorResponse 401 "INVALID_TOKEN" "Invalid token" VUndefined)
  else
  currentTime ← current_time;
  exp ← lift (get decoded "exp");
  expired ← lift (js_lt exp currentTime);
  if (expired : bool)
  then mret (createErrorResponse 401 "TOKEN_EXPIRED" "Token has expired" VUndefined)
  else
  token_use ← lift (get decoded "token_use");
  if negb (strict_eq_string token_use "access") && negb (strict_eq_string token_use "id")
  then mret (createErrorResponse 401 "INVALID_TOKEN_TYPE" "Invalid token type" VUndefined)
  else
  sub ← lift (get decoded "sub");
  email ← lift (get decoded "email");
  iat ← lift (get decoded "iat");
  mret (createResponse 200
    (VObj [("message", VStr "Token is valid");
           ("data", VObj [("sub", sub);
                          ("email", email);
                          ("tokenType", token_use);
                          ("expiresAt", exp);
                          ("issuedAt", iat)])])
    ∅).

Definition validate_catch (error : thrown) : ApiResponse :=
  match error with
  | JsError name message =>
      if String.eqb name "JsonWebTokenError"
      then createErrorResponse 401 "INVALID_TOKEN" "Invalid token format" VUndefined
      else if String.eqb name "TokenExpiredError"
      then createErrorResponse 401 "TOKEN_EXPIRED" "Token has expired" VUndefined
      else createErrorResponse 500 "INTERNAL_ERROR" "Internal server error" (VStr message)
  | NonError _ =>
      createErrorResponse 500 "INTERNAL_ERROR" "Internal server error" (VStr "Unknown error")
  end.

Definition validate (event : Lambda.APIGatewayProxyEvent) : io ApiResponse :=
  try_catch (validate_try event) "Token validation error:" validate_catch.

(** ** src/handlers/user.ts *)

Definition getUserFromToken (token : string) : result (value * value) :=
  decoded ← jwt_decode (VStr token) false;
  sub ← get decoded "sub";
  email ← get decoded "email";
  username ← get decoded "username";
  Ok (js_or sub (VStr EmptyString),
      js_or (js_or email username) (VStr EmptyString)).

(** [userAttributes[attr.Name] = attr.Value], guarded by
    [attr.Name && attr.Value]. Assigning a string to [__proto__] goes to the
    prototype setter, which ignores it. *)
Definition set_attribute (userAttributes : gmap string string)
    (attr : Cognito.AttributeType) : gmap string string :=
  match Cognito.Name attr, Cognito.Value attr with
  | Some name, Some v =>
      if string_truthy (Some name) && string_truthy (Some v)
      then if String.eqb name "__proto__" then userAttributes
           else <[name := v]> userAttributes
      else userAttributes
  | _, _ => userAttributes
  end.

Definition user_not_found_catch (error : thrown) : ApiResponse :=
  match error with
  | JsError name _ =>
      if String.eqb name "UserNotFoundException"
      then createErrorResponse 404 "USER_NOT_FOUND" "User not found" VUndefined
      else internal_error error
  | NonError _ => internal_error error
  end.

Definition getUser_try (event : Lambda.APIGatewayProxyEvent) : io ApiResponse :=
  token ← lift (getAuthHeader event);
  '(_, email) ← lift (getUserFromToken token);
  response ← send (Cognito.AdminGetUserCommand USER_POOL_ID email);
  let userAttributes :=
    foldl set_attribute ∅ (default [] (Cognito.UserAttributes response)) in
  let user :=
    VObj [("sub", of_string (Cognito.Username response));
          ("email", of_string (userAttributes !! "email"));
          ("firstName", of_string (userAttributes !! "given_name"));
          ("lastName", of_string (userAttributes !! "family_name"));
          ("emailVerified",
             VBool (bool_decide (userAttributes !! "email_verified" = Some "true")));
          ("enabled", VBool (default false (Cognito.Enabled response)));
          ("userStatus", of_string (Cognito.UserStatus response));
          ("createdDate", of_date (Cognito.UserCreateDate response));
          ("lastModifiedDate", of_date (Cognito.UserLastModifiedDate response))] in
  mret (createResponse 200
    (VObj [("message", VStr "User retrieved successfully"); ("data", user)]) ∅).

Definition getUser (event : Lambda.APIGatewayProxyEvent) : io ApiResponse :=
  try_catch (getUser_try event) "Get user error:" user_not_found_catch.

Definition updateUser_try (event : Lambda.APIGatewayProxyEvent) : io ApiResponse :=
  token ← lift (getAuthHeader event);
  '(_, email) ← lift (getUserFromToken token);
  body ← lift (parseRequestBody event);
  firstName ← lift (get body "firstName");
  lastName ← lift (get body "lastName");
  newEmail ← lift (get body "email");
  let userAttributes :=
    (if is_defined firstName then [("given_name", firstName)] else []) ++
    (if is_defined lastName then [("family_name", lastName)] else []) ++
    (if is_defined newEmail then [("email", newEmail)] else []) in
  if (length userAttributes =? 0)%nat
  then mret (createErrorResponse 400 "NO_UPDATES" "No valid fields to update" VUndefined)
  else
  _ ← send (Cognito.AdminUpdateUserAttributesCommand USER_POOL_ID email userAttributes);
  mret (createResponse 200 (VObj [("message", VStr "User updated successfully")]) ∅).

Definition updateUser (event : Lambda.APIGatewayProxyEvent) : io ApiResponse :=
  try_catch (updateUser_try event) "Update user error:" user_not_found_catch.

Definition deleteUser_try (event : Lambda.APIGatewayProxyEvent) : io ApiResponse :=
  token ← lift (getAuthHeader event);
  '(_, email) ← lift (getUserFromToken token);
  _ ← send (Cognito.AdminDeleteUserCommand USER_POOL_ID email);
  mret (createResponse 200 (VObj [("message", VStr "User deleted successfully")]) ∅).

Definition deleteUser (event : Lambda.APIGatewayProxyEvent) : io ApiResponse :=
  try_catch (deleteUser_try event) "Delete user error:" user_not_found_catch.

Definition changePassword_try (event : Lambda.APIGatewayProxyEvent) : io ApiResponse :=
  token ← lift (getAuthHeader event);
  '(_, email) ← lift (getUserFromToken token);
  body ← lift (parseRequestBody event);
  _ ← lift (validateRequiredFields body ["oldPassword"; "newPassword"]);
  newPassword ← lift (get body "newPassword");
  _ ← send (Cognito.AdminSetUserPasswordCommand USER_POOL_ID email newPassword true);
  mret (createResponse 200 (VObj [("message", VStr "Password changed successfully")]) ∅).

Definition changePassword_catch (error : thrown) : ApiResponse :=
  match error with
  | JsError name message =>
      if String.eqb name "UserNotFoundException"
      then createErrorResponse 404 "USER_NOT_FOUND" "User not found" VUndefined
      else if String.eqb name "InvalidPasswordException"
      then createErrorResponse 400 "INVALID_PASSWORD"
             "Password does not meet requirements" VUndefined
      else createErrorResponse 500 "INTERNAL_ERROR" "Internal server error" (VStr message)
  | NonError _ =>
      createErrorResponse 500 "INTERNAL_ERROR" "Internal server error" (VStr "Unknown error")
  end.

Definition changePassword (event : Lambda.APIGatewayProxyEvent) : io ApiResponse :=
  try_catch (changePassword_try event) "Change password error:" changePassword_catch.

(** ** src/handlers/auth.ts *)

Definition login_try (event : Lambda.APIGatewayProxyEvent) : io ApiResponse :=
  body ← lift (parseRequestBody event);
  _ ← lift (validateRequiredFields body ["email"; "password"]);
  email ← lift (get body "email");
  password ← lift (get body "password");
  response ← send (Cognito.AdminInitiateAuthCommand USER_POOL_ID USER_POOL_CLIENT_ID
                     "ADMIN_NO_SRP_AUTH"
                     [("USERNAME", email); ("PASSWORD", password)]);
  match Cognito.AuthenticationResult response with
  | None =>
      mret (createErrorResponse 401 "AUTHENTICATION_FAILED" "Invalid credentials" VUndefined)
  | Some authenticationResult =>
      let authResponse :=
        VObj [("accessToken", of_string (Cognito.AccessToken authenticationResult));
              ("idToken", of_string (Cognito.IdToken authenticationResult));
              ("refreshToken", of_string (Cognito.RefreshToken authenticationResult));
              ("expiresIn", of_number (Cognito.ExpiresIn authenticationResult));
              ("tokenType", of_string (Cognito.TokenType authenticationResult))] in
      mret (createResponse 200
        (VObj [("message", VStr "Login successful"); ("data", authResponse)]) ∅)
  end.

Definition login_catch (error : thrown) : ApiResponse :=
  match error with
  | JsError name message =>
      if String.eqb name "UserNotConfirmedException"
      then createErrorResponse 400 "USER_NOT_CONFIRMED" "User email not confirmed" VUndefined
      else if String.eqb name "NotAuthorizedException"
      then createErrorResponse 401 "INVALID_CREDENTIALS" "Invalid email or password" VUndefined
      else if String.eqb name "UserNotFoundException"
      then createErrorResponse 404 "USER_NOT_FOUND" "User not found" VUndefined
      else createErrorResponse 500 "INTERNAL_ERROR" "Internal server error" (VStr message)
  | NonError _ =>
      createErrorResponse 500 "INTERNAL_ERROR" "Internal server error" (VStr "Unknown error")
  end.

Definition login (event : Lambda.APIGatewayProxyEvent) : io ApiResponse :=
  try_catch (login_try event) "Login error:" login_catch.

Definition register_try (event : Lambda.APIGatewayProxyEvent) : io ApiResponse :=
  body ← lift (parseRequestBody event);
  _ ← lift (validateRequiredFields body ["email"; "password"]);
  email ← lift (get body "email");
  firstName ← lift (get body "firstName");
  lastName ← lift (get body "lastName");
  password ← lift (get body "password");
  let userAttributes :=
    [("email", email); ("email_verified", VStr "true")] ++
    (if truthy firstName then [("given_name", firstName)] else []) ++
    (if truthy lastName then [("family_name", lastName)] else []) in
  _ ← send (Cognito.AdminCreateUserCommand USER_POOL_ID email userAttributes
              "SUPPRESS" password);
  _ ← send (Cognito.AdminSetUserPasswordCommand USER_POOL_ID email password true);
  mret (createResponse 201
    (VObj [("message", VStr "User registered successfully");
           ("data", VObj [("email", email)])]) ∅).

Definition register_catch (error : thrown) : ApiResponse :=
  match error with
  | JsError name message =>
      if String.eqb name "UsernameExistsException"
      then createErrorResponse 409 "USER_EXISTS" "User already exists" VUndefined
      else if String.eqb name "InvalidPasswordException"
      then createErrorResponse 400 "INVALID_PASSWORD"
             "Password does not meet requirements" VUndefined
      else createErrorResponse 500 "INTERNAL_ERROR" "Internal server error" (VStr message)
  | NonError _ =>
      createErrorResponse 500 "INTERNAL_ERROR" "Internal server error" (VStr "Unknown error")
  end.

Definition register (event : Lambda.APIGatewayProxyEvent) : io ApiResponse :=
  try_catch (register_try event) "Registration error:" register_catch.

Definition refreshToken_try (event : Lambda.APIGatewayProxyEvent) : io ApiResponse :=
  body ← lift (parseRequestBody event);
  _ ← lift (validateRequiredFields body ["refreshToken"]);
  refreshToken ← lift (get body "refreshToken");
  response ← send (Cognito.AdminInitiateAuthCommand USER_POOL_ID USER_POOL_CLIENT_ID
                     "REFRESH_TOKEN_AUTH"
                     [("REFRESH_TOKEN", refreshToken)]);
  match Cognito.AuthenticationResult response with
  | None =>
      mret (createErrorResponse 401 "REFRESH_FAILED" "Invalid refresh token" VUndefined)
  | Some authenticationResult =>
      let authResponse :=
        VObj [("accessToken", of_string (Cognito.AccessToken authenticationResult));
              ("idToken", of_string (Cognito.IdToken authenticationResult));
              ("expiresIn", of_number (Cognito.ExpiresIn authenticationResult));
              ("tokenType", of_string (Cognito.TokenType authenticationResult))] in
      mret (createResponse 200
        (VObj [("message", VStr "Token refreshed successfully"); ("data", authResponse)]) ∅)
  end.

Definition refreshToken_catch (error : thrown) : ApiResponse :=
  match error with
  | JsError name message =>
      if String.eqb name "NotAuthorizedException"
      then createErrorResponse 401 "INVALID_REFRESH_TOKEN"
             "Invalid or expired refresh token" VUndefined
      else createErrorResponse 500 "INTERNAL_ERROR" "Internal server error" (VStr message)
  | NonError _ =>
      createErrorResponse 500 "INTERNAL_ERROR" "Internal server error" (VStr "Unknown error")
  end.

Definition refreshToken (event : Lambda.APIGatewayProxyEvent) : io ApiResponse :=
  try_catch (refreshToken_try event) "Refresh token error:" refreshToken_catch.

Definition logout_try : io ApiResponse :=
  mret (createResponse 200 (VObj [("message", VStr "Logout successful")]) ∅).

Definition logout : io ApiResponse :=
  try_catch logout_try "Logout error:" internal_error.

(** ** The handlers, side by side *)

(** The body of the [try] block of every exported handler, and the handler.
    [logout] takes no argument. *)
Definition handlers
    : list ((Lambda.APIGatewayProxyEvent -> io ApiResponse) *
            (Lambda.APIGatewayProxyEvent -> io ApiResponse)) :=
  [ (login_try, login);
    (register_try, register);
    (refreshToken_try, refreshToken);
    (fun _ => logout_try, fun _ => logout);
    (validate_try, validate);
    (getUser_try, getUser);
    (updateUser_try, updateUser);
    (deleteUser_try, deleteUser);
    (changePassword_try, changePassword) ].

End Handlers.

(** The error names that some [catch] block maps to a response of its own. *)
Definition taxonomy : list string :=
  [ "UserNotFoundException"; "InvalidPasswordException";
    "UserNotConfirmedException"; "NotAuthorizedException";
    "UsernameExistsException"; "JsonWebTokenError"; "TokenExpiredError" ].

(** The status codes of the responses the handlers build. *)
Definition status_codes : list Z := [200; 201; 400; 401; 404; 409; 500].

(** A well-formed envelope: a known status, the fixed headers, and a body
    that is the serialisation of some payload. *)
Definition well_formed {rt : Runtime} (response : ApiResponse) : Prop :=
  statusCode response ∈ status_codes ∧
  headers response = default_headers ∧
  ∃ data : value, body response = JSON_stringify data.

(** ** A concrete runtime and provider

    One runtime and one provider on which the handlers can be run. The
    runtime follows Node on the inputs the examples use and is crude
    elsewhere; nothing but the examples depends on it. *)

Module Example.

Definition quote (s : string) : string :=
  String "034" (s ++ String "034" EmptyString).

(** Three unsigned tokens, [header.payload.signature] in base64url. The
    payloads are
    [{sub: u1, email: a@b.c, token_use: id, exp: 2000, iat: 1000}],
    [{sub: u1, email: a@b.c, token_use: access}] and
    [{sub: u1, token_use: refresh, exp: 2000}]. *)
Definition id_token : string :=
  "eyJhbGciOiJIUzI1NiIsInR5cCI6IkpXVCJ9.eyJzdWIiOiJ1MSIsImVtYWlsIjoiYUBiLmMiLCJ0b2tlbl91c2UiOiJpZCIsImV4cCI6MjAwMCwiaWF0IjoxMDAwfQ.c2ln".

Definition access_token_without_exp : string :=
  "eyJhbGciOiJIUzI1NiIsInR5cCI6IkpXVCJ9.eyJzdWIiOiJ1MSIsImVtYWlsIjoiYUBiLmMiLCJ0b2tlbl91c2UiOiJhY2Nlc3MifQ.c2ln".

Definition refresh_token : string :=
  "eyJhbGciOiJIUzI1NiIsInR5cCI6IkpXVCJ9.eyJzdWIiOiJ1MSIsInRva2VuX3VzZSI6InJlZnJlc2giLCJleHAiOjIwMDB9.c2ln".

Definition id_payload : value :=
  VObj [("sub", VStr "u1"); ("email", VStr "a@b.c"); ("token_use", VStr "id");
        ("exp", VNum (number_of_Z 2000)); ("iat", VNum (number_of_Z 1000))].

Definition access_payload_without_exp : value :=
  VObj [("sub", VStr "u1"); ("email", VStr "a@b.c"); ("token_use", VStr "access")].

Definition refresh_payload : value :=
  VObj [("sub", VStr "u1"); ("token_use", VStr "refresh");
        ("exp", VNum (number_of_Z 2000))].

(** [{token: <token>}] as request text *)
Definition token_body (token : string) : string :=
  "{" ++ quote "token" ++ ":" ++ quote token ++ "}".

(** [{email: a@b.c, password: pw}] as request text *)
Definition credentials_body : string :=
  "{" ++ quote "email" ++ ":" ++ quote "a@b.c" ++ "," ++
  quote "password" ++ ":" ++ quote "pw" ++ "}".

(** [JSON.parse] on the request texts of the examples; any other text is
    turned down. *)
Definition parse (text : string) : result value :=
  if String.eqb text "{}" then Ok (VObj [])
  else if String.eqb text "null" then Ok VNull
  else if String.eqb text (token_body id_token)
  then Ok (VObj [("token", VStr id_token)])
  else if String.eqb text (token_body access_token_without_exp)
  then Ok (VObj [("token", VStr access_token_without_exp)])
  else if String.eqb text (token_body refresh_token)
  then Ok (VObj [("token", VStr refresh_token)])
  else if String.eqb text credentials_body
  then Ok (VObj [("email", VStr "a@b.c"); ("password", VStr "pw")])
  else Throw (JsError "SyntaxError" "Unexpected token in JSON").

Definition jose_header : value :=
  VObj [("alg", VStr "HS256"); ("typ", VStr "JWT")].

(** [jwt.decode] on the three tokens; anything else is not a token and
    decodes to [null]. *)
Definition decode (token : value) (complete : bool) : result value :=
  let payload :=
    if strict_eq_string token id_token then Some id_payload
    else if strict_eq_string token access_token_without_exp
    then Some access_payload_without_exp
    else if strict_eq_string token refresh_token then Some refresh_payload
    else None in
  match payload with
  | Some p =>
      Ok (if complete
          then VObj [("header", jose_header); ("payload", p); ("signature", VStr "c2ln")]
          else p)
  | None => Ok VNull
  end.

(** The methods every value inherits from [Object.prototype]. *)
Definition object_prototype : list string :=
  [ "constructor"; "hasOwnProperty"; "isPrototypeOf"; "propertyIsEnumerable";
    "toLocaleString"; "toString"; "valueOf" ].

Definition builtin (v : value) (k : string) : value :=
  if bool_decide (k ∈ object_prototype) then VHost "function" else VUndefined.

(** The wording of V8. *)
Definition read_message (v : value) (k : string) : string :=
  "Cannot read properties of " ++
  (match v with VNull => "null" | _ => "undefined" end) ++
  " (reading '" ++ k ++ "')".

Definition serialisable (v : value) : bool :=
  match v with
  | VUndefined | VHost _ => false
  | _ => true
  end.

(** A serialiser in the manner of [JSON.stringify]: properties that hold
    [undefined] or a function are left out. Strings are not escaped,
    fractions are cut off and dates are not formatted. *)
Fixpoint stringify (v : value) : string :=
  match v with
  | VUndefined | VNull | VHost _ | VDate _ => "null"
  | VBool b => if b then "true" else "false"
  | VNum (Finite q) => pretty (Qnum q / Z.pos (Qden q))
  | VNum _ => "null"
  | VStr s => quote s
  | VArr items => "[" ++ join "," (map stringify items) ++ "]"
  | VObj fields =>
      "{" ++
      join ","
        ((fix members (fields : list (string * value)) : list string :=
            match fields with
            | [] => []
            | (k, x) :: rest =>
                if serialisable x
                then (quote k ++ ":" ++ stringify x)%string :: members rest
                else members rest
            end) fields) ++
      "}"
  end.

#[export] Instance runtime : Runtime := {|
  JSON_parse := parse;
  JSON_stringify := stringify;
  jwt_decode := decode;
  builtin_property := builtin;
  nullish_read_message := read_message;
  StringToNumber := fun _ => NaN;
  ObjectToNumber := fun _ => Ok NaN;
|}.

(** A user pool that only remembers which user names exist. *)
Definition user_of (Username : value) : string :=
  match Username with
  | VStr s => s
  | _ => EmptyString
  end.

Definition not_found : thrown :=
  JsError "UserNotFoundException" "User does not exist.".

Definition tokens : Cognito.AuthenticationResultType :=
  {| Cognito.AccessToken := Some access_token_without_exp;
     Cognito.ExpiresIn := Some (number_of_Z 3600);
     Cognito.TokenType := Some "Bearer";
     Cognito.RefreshToken := Some refresh_token;
     Cognito.IdToken := Some id_token |}.

Definition pool_send (R : Type) (command : Cognito.command R) (users : list string)
    : result R * list string :=
  match command in Cognito.command R return result R * list string with
  | Cognito.AdminGetUserCommand _ Username =>
      if bool_decide (user_of Username ∈ users)
      then (Ok {| Cognito.Username := Some (user_of Username);
                  Cognito.UserAttributes :=
                    Some [ {| Cognito.Name := Some "email";
                              Cognito.Value := Some (user_of Username) |};
                           {| Cognito.Name := Some "email_verified";
                              Cognito.Value := Some "true" |} ];
                  Cognito.UserCreateDate := Some (number_of_Z 0);
                  Cognito.UserLastModifiedDate := Some (number_of_Z 0);
                  Cognito.Enabled := Some true;
                  Cognito.UserStatus := Some "CONFIRMED" |}, users)
      else (Throw not_found, users)
  | Cognito.AdminUpdateUserAttributesCommand _ Username _ =>
      if bool_decide (user_of Username ∈ users)
      then (Ok tt, users) else (Throw not_found, users)
  | Cognito.AdminDeleteUserCommand _ Username =>
      if bool_decide (user_of Username ∈ users)
      then (Ok tt, filter (fun u => u ≠ user_of Username) users)
      else (Throw not_found, users)
  | Cognito.AdminSetUserPasswordCommand _ Username _ _ =>
      if bool_decide (user_of Username ∈ users)
      then (Ok tt, users) else (Throw not_found, users)
  | Cognito.AdminInitiateAuthCommand _ _ _ _ =>
      (Ok {| Cognito.AuthenticationResult := Some tokens |}, users)
  | Cognito.AdminCreateUserCommand _ Username _ _ _ =>
      if bool_decide (user_of Username ∈ users)
      then (Throw (JsError "UsernameExistsException" "User account already exists"),
            users)
      else (Ok tt, user_of Username :: users)
  end.

#[export] Instance pool : Provider := {|
  provider_state := list string;
  provider_send := pool_send;
|}.

(** Half past the 1500th second of the epoch, nothing sent, no users. *)
Definition start : world :=
  {| cognito := [] : list string; sent := []; stderr := []; Date_now := 1500500 |}.

Definition request (body : option string) (headers : list (string * string))
    : Lambda.APIGatewayProxyEvent :=
  {| Lambda.body := body; Lambda.headers := list_to_map headers |}.

End Example.

(** * The vocabulary of the properties *)

Section Vocabulary.
Context {rt : Runtime} {idp : Provider}.

(** A required field counts as missing when the data has no own property
    of that name, or one whose value is falsy. *)
Definition absent_or_falsy (data : value) (field : string) : bool :=
  match own_property data field with
  | Some v => negb (truthy v)
  | None => true
  end.

(** [validateRequiredFields] passes when no field is missing, and otherwise
    throws an error whose message lists every missing field, in order. *)
Definition lists_every_missing_field (data : value) (names : list string) : Prop :=
  validateRequiredFields data names =
    match List.filter (absent_or_falsy data) names with
    | [] => Ok tt
    | missing => Throw (Error ("Missing required fields: " ++ join ", " missing))
    end.

(** What [validate] answers once the token has decoded. *)
Definition validate_outcome (decoded : value) (expired : bool) : ApiResponse :=
  if expired
  then createErrorResponse 401 "TOKEN_EXPIRED" "Token has expired" VUndefined
  else if negb (strict_eq_string (property decoded "token_use") "access") &&
          negb (strict_eq_string (property decoded "token_use") "id")
  then createErrorResponse 401 "INVALID_TOKEN_TYPE" "Invalid token type" VUndefined
  else createResponse 200
         (VObj [("message", VStr "Token is valid");
                ("data", VObj [("sub", property decoded "sub");
                               ("email", property decoded "email");
                               ("tokenType", property decoded "token_use");
                               ("expiresAt", property decoded "exp");
                               ("issuedAt", property decoded "iat")])])
         ∅.

(** The request carries a token, and the token decodes to a payload: the
    body parses, its [token] is truthy, and both calls of [jwt.decode] give
    something truthy, the second one [decoded]. *)
Definition decodes_to (event : Lambda.APIGatewayProxyEvent) (decoded : value) : Prop :=
  ∃ body token decodedHeader : value,
    parseRequestBody event = Ok body ∧
    get body "token" = Ok token ∧ truthy token = true ∧
    jwt_decode token true = Ok decodedHeader ∧ truthy decodedHeader = true ∧
    jwt_decode token false = Ok decoded ∧ truthy decoded = true.

(** Every response an [io] computation resolves to satisfies [P]. *)
Definition returns {A : Type} (P : A -> Prop) (m : io A) : Prop :=
  ∀ (w : world) (a : A) (w' : world), m w = (Ok a, w') -> P a.

(** An error that no [catch] block has a case for. *)
Definition unrecognised (error : thrown) : Prop :=
  match error with
  | JsError name _ => name ∉ taxonomy
  | NonError _ => True
  end.

(** The world after the provider has taken [commands] and moved to [p]. *)
Definition with_sent (w : world) (p : provider_state)
    (commands : list Cognito.call) : world :=
  {| cognito := p;
     sent := sent w ++ commands;
     stderr := stderr w;
     Date_now := Date_now w |}.

(** The same world at another time. *)
Definition set_clock (t : Z) (w : world) : world :=
  {| cognito := cognito w;
     sent := sent w;
     stderr := stderr w;
     Date_now := t |}.

(** A computation that sends at most [n] commands, and keeps what was sent
    before. *)
Definition sends_at_most {A : Type} (n : nat) (m : io A) : Prop :=
  ∀ w : world, ∃ commands : list Cognito.call,
    sent (m w).2 = sent w ++ commands ∧ (length commands ≤ n)%nat.

(** A computation that leaves the provider alone. *)
Definition quiet {A : Type} (m : io A) : Prop :=
  ∀ w : world, cognito (m w).2 = cognito w ∧ sent (m w).2 = sent w.

(** A computation whose outcome and effects do not depend on the time. *)
Definition clock_blind {A : Type} (m : io A) : Prop :=
  ∀ (w : world) (t : Z), m (set_clock t w) = ((m w).1, set_clock t (m w).2).

(** The value the provider lists for the attribute [name]: that of the
    last entry of that name among the entries that have a name and a value,
    neither empty. *)
Fixpoint last_attribute (name : string) (attributes : list Cognito.AttributeType)
    : option string :=
  match attributes with
  | [] => None
  | attr :: rest =>
      match last_attribute name rest with
      | Some v => Some v
      | None =>
          if bool_decide (Cognito.Name attr = Some name) &&
             string_truthy (Cognito.Name attr) && string_truthy (Cognito.Value attr)
          then Cognito.Value attr
          else None
      end
  end.

(** [error instanceof Error && error.name === name] *)
Definition is_named (error : thrown) (name : string) : bool :=
  match error with
  | JsError n _ => String.eqb n name
  | NonError _ => false
  end.

(** The user name the profile handlers give the provider: the token's
    [email] if it is truthy, else its [username], else the empty string. *)
Definition token_user (decoded : value) : value :=
  match truthy (property decoded "email"), truthy (property decoded "username") with
  | true, _ => property decoded "email"
  | false, true => property decoded "username"
  | false, false => VStr EmptyString
  end.

(** The attributes a profile update asks for: each of [firstName],
    [lastName] and [email] that the body defines, under the provider's
    name for it. *)
Definition profile_updates (body : value) : list (string * value) :=
  omap (fun '(field, name) =>
          if is_defined (property body field)
          then Some (name, property body field)
          else None)
       [("firstName", "given_name"); ("lastName", "family_name"); ("email", "email")].

(** A computation that writes nothing to the console. *)
Definition silent {A : Type} (m : io A) : Prop :=
  ∀ w : world, stderr (m w).2 = stderr w.

End Vocabulary.

(** ** More request texts

    The runtime of [Example], taught three more request bodies and a token
    that [jwt.decode] chokes on. *)

Module Forms.

(** [{oldPassword: old, newPassword: new}] as request text *)
Definition password_body : string :=
  "{" ++ Example.quote "oldPassword" ++ ":" ++ Example.quote "old" ++ "," ++
  Example.quote "newPassword" ++ ":" ++ Example.quote "new" ++ "}".

(** [{refreshToken: <token>}] as request text *)
Definition refresh_body : string :=
  "{" ++ Example.quote "refreshToken" ++ ":" ++
  Example.quote Example.refresh_token ++ "}".

(** A token whose header says [JWT] and whose payload is the text
    [not json]: decoding it runs [JSON.parse] on the payload, which throws. *)
Definition broken_token : string :=
  "eyJhbGciOiJIUzI1NiIsInR5cCI6IkpXVCJ9.bm90IGpzb24.c2ln".

Definition parse (text : string) : result value :=
  if String.eqb text (Example.token_body broken_token)
  then Ok (VObj [("token", VStr broken_token)])
  else if String.eqb text password_body
  then Ok (VObj [("oldPassword", VStr "old"); ("newPassword", VStr "new")])
  else if String.eqb text refresh_body
  then Ok (VObj [("refreshToken", VStr Example.refresh_token)])
  else Example.parse text.

Definition decode (token : value) (complete : bool) : result value :=
  if strict_eq_string token broken_token
  then Throw (JsError "SyntaxError" "Unexpected token o in JSON at position 1")
  else Example.decode token complete.

Definition runtime : Runtime := {|
  JSON_parse := parse;
  JSON_stringify := Example.stringify;
  jwt_decode := decode;
  builtin_property := Example.builtin;
  nullish_read_message := Example.read_message;
  StringToNumber := fun _ => NaN;
  ObjectToNumber := fun _ => Ok NaN;
|}.

(** The world of [Example.start], with the user of the example tokens
    registered. *)
Definition populated : world (idp := Example.pool) :=
  {| cognito := ["a@b.c"] : @provider_state Example.pool;
     sent := [];
     stderr := [];
     Date_now := 1500500 |}.

(** A header set with a bearer token. *)
Definition bearer (token : string) : list (string * string) :=
  [("Authorization", "Bearer " ++ token)%string].

End Forms.

(** The pool and client identifiers of the examples. *)
Definition example_pool_id : value := VStr "pool-1".
Definition example_client_id : value := VStr "client-1".

(** * Properties of the request helpers *)

Lemma startsWith_app (p rest : string) : startsWith (p ++ rest) p = true.
Proof.
  unfold startsWith. induction p as [|c p IH]; simpl.
  - by destruct rest.
  - destruct (ascii_dec c c); [exact IH | congruence].
Qed.

Lemma substring_from_app (p rest : string) :
  substring_from (String.length p) (p ++ rest) = rest.
Proof. induction p as [|c p IH]; simpl; [by destruct rest | exact IH]. Qed.

Lemma startsWith_inv (s p : string) :
  startsWith s p = true -> s = (p ++ substring_from (String.length p) s)%string.
Proof.
  unfold startsWith. revert s. induction p as [|c p IH]; intros s H; simpl in *.
  - by destruct s.
  - destruct s as [|d s]; simpl in H; [done|].
    destruct (ascii_dec c d) as [->|]; [|done].
    change (String d s = String d (p ++ substring_from (String.length p) s))%string.
    f_equal. by apply IH.
Qed.

Lemma eqb_empty_false (s : string) : s ≠ EmptyString -> String.eqb s EmptyString = false.
Proof. intros H. by apply String.eqb_neq. Qed.

(** With neither spelling of the header present, nothing is read. *)
Lemma authHeader_absent (event : Lambda.APIGatewayProxyEvent) :
  Lambda.headers event !! "Authorization" = None ->
  Lambda.headers event !! "authorization" = None ->
  authHeader event = None.
Proof. intros Hupper Hlower. unfold authHeader. by rewrite Hupper, Hlower. Qed.

(** C6, the part that fails: a header set with an [Authorization] entry
    whose value does not start with [Bearer ] need not be turned down as
    malformed. The empty value is reported as a missing header. *)
Lemma getAuthHeader_empty_value :
  ¬ (∀ (event : Lambda.APIGatewayProxyEvent) (v : string),
       Lambda.headers event !! "Authorization" = Some v ->
       startsWith v "Bearer " = false ->
       getAuthHeader event =
         Throw (Error "Authorization header must be a Bearer token")).
Proof.
  intros claim.
  specialize (claim (Example.request None [("Authorization", EmptyString)])
                    EmptyString eq_refl eq_refl).
  vm_compute in claim. discriminate claim.
Qed.

(** C6, amended: [getAuthHeader] reads [Authorization] and, when that is
    absent or empty, [authorization]. If what it reads is absent or empty
    it throws the missing-header error; if it is not empty and does not
    start with [Bearer ] it throws the malformed-header error; and a
    value [Bearer ] followed by [token] yields exactly [token]. *)
Theorem getAuthHeader_spec (event : Lambda.APIGatewayProxyEvent) :
  (string_truthy (authHeader event) = false ->
   getAuthHeader event = Throw (Error "Authorization header is required")) ∧
  (∀ v : string,
     authHeader event = Some v -> v ≠ EmptyString ->
     startsWith v "Bearer " = false ->
     getAuthHeader event =
       Throw (Error "Authorization header must be a Bearer token")) ∧
  (∀ v : string,
     authHeader event = Some v -> startsWith v "Bearer " = true ->
     getAuthHeader event = Ok (substring_from 7 v) ∧
     v = ("Bearer " ++ substring_from 7 v)%string).
Proof.
  unfold getAuthHeader. split; [|split].
  - destruct (authHeader event) as [v|]; simpl; [|done].
    intros H. apply negb_false_iff in H. by rewrite H.
  - intros v -> Hne Hprefix. by rewrite (eqb_empty_false _ Hne), Hprefix.
  - intros v -> Hprefix. split.
    + rewrite Hprefix. by destruct v.
    + by apply (startsWith_inv v "Bearer ").
Qed.

Lemma getAuthHeader_spec_witness :
  getAuthHeader (Example.request None [("Authorization", "Bearer abc")]) = Ok "abc" ∧
  "Bearer abc" = ("Bearer " ++ "abc")%string.
Proof.
  apply (proj2 (proj2 (getAuthHeader_spec
           (Example.request None [("Authorization", "Bearer abc")]))) "Bearer abc");
    vm_compute; reflexivity.
Defined.

Section RequestHelpers.
Context {rt : Runtime}.

(** C7: [parseRequestBody] returns what [JSON.parse] makes of a body that
    is JSON, throws its own error on a body that is not, and reads an
    absent or empty body as the empty object. That [{}] parses to the empty
    object and the empty text is not JSON are facts about [JSON.parse]. *)
Theorem parseRequestBody_spec (event : Lambda.APIGatewayProxyEvent) :
  JSON_parse "{}" = Ok (VObj []) ->
  (∀ v : value, JSON_parse EmptyString ≠ Ok v) ->
  (∀ (text : string) (v : value),
     Lambda.body event = Some text -> JSON_parse text = Ok v ->
     parseRequestBody event = Ok v) ∧
  (∀ (text : string) (e : thrown),
     Lambda.body event = Some text -> text ≠ EmptyString ->
     JSON_parse text = Throw e ->
     parseRequestBody event = Throw (Error "Invalid JSON in request body")) ∧
  (Lambda.body event = None ∨ Lambda.body event = Some EmptyString ->
   parseRequestBody event = Ok (VObj [])).
Proof.
  intros Hbraces Hempty. unfold parseRequestBody. repeat split.
  - intros text v -> Hv.
    destruct (String.eqb_spec text EmptyString) as [->|_].
    + by destruct (Hempty v).
    + by rewrite Hv.
  - intros text e -> Hne He. by rewrite (eqb_empty_false _ Hne), He.
  - intros [-> | ->]; simpl; by rewrite Hbraces.
Qed.

Lemma get_defined (data : value) (field : string) :
  nullish data = false -> get data field = Ok (property data field).
Proof. intros H. unfold get. by rewrite H. Qed.

Lemma missing_fields_filter (data : value) (names : list string) :
  nullish data = false ->
  (∀ field : string,
     field ∈ names -> own_property data field = None ->
     truthy (builtin_property data field) = false) ->
  missing_fields data names = Ok (List.filter (absent_or_falsy data) names).
Proof.
  intros Hdata. induction names as [|field names IH]; intros Hbuiltin; [done|].
  simpl. rewrite (get_defined _ _ Hdata). simpl.
  rewrite IH by (intros f Hf; apply Hbuiltin; by right). simpl.
  unfold absent_or_falsy, property.
  destruct (own_property data field) as [v|] eqn:Hown; simpl.
  - by destruct (truthy v).
  - by rewrite (Hbuiltin field (list_elem_of_here _ _) Hown).
Qed.

(** C8, amended: for data other than [null] and [undefined], and names that
    the runtime does not itself supply with a truthy value (as it does the
    inherited [toString]), [validateRequiredFields] passes when no named
    field is absent or falsy and otherwise throws an error that lists every
    absent or falsy named field, not only the first. *)
Theorem validateRequiredFields_spec (data : value) (names : list string) :
  nullish data = false ->
  (∀ field : string,
     field ∈ names -> own_property data field = None ->
     truthy (builtin_property data field) = false) ->
  lists_every_missing_field data names.
Proof.
  intros Hdata Hbuiltin.
  unfold lists_every_missing_field, validateRequiredFields.
  rewrite (missing_fields_filter _ _ Hdata Hbuiltin). simpl.
  by destruct (List.filter (absent_or_falsy data) names).
Qed.

End RequestHelpers.

Lemma parseRequestBody_spec_witness :
  parseRequestBody (rt := Example.runtime) (Example.request (Some "null") []) = Ok VNull.
Proof.
  apply (proj1 (parseRequestBody_spec (rt := Example.runtime)
                  (Example.request (Some "null") []) eq_refl
                  ltac:(intros v; vm_compute; discriminate)) "null" VNull);
    reflexivity.
Defined.

(** C8 as stated fails twice over. Reading a field of [null] throws a
    [TypeError] before any field is listed, and a name that every object
    inherits, such as [toString], is never missing. *)
Lemma validateRequiredFields_null_and_inherited :
  ¬ lists_every_missing_field (rt := Example.runtime) VNull ["a"] ∧
  ¬ lists_every_missing_field (rt := Example.runtime) (VObj []) ["toString"].
Proof. split; intros claim; vm_compute in claim; discriminate claim. Qed.

Lemma validateRequiredFields_spec_witness :
  validateRequiredFields (rt := Example.runtime) (VObj []) ["a"; "b"] =
    Throw (Error "Missing required fields: a, b").
Proof.
  apply (validateRequiredFields_spec (rt := Example.runtime) (VObj []) ["a"; "b"]).
  - reflexivity.
  - intros field Hfield _.
    apply list_elem_of_In in Hfield. simpl in Hfield.
    destruct Hfield as [<- | [<- | []]]; reflexivity.
Defined.

(** * Properties of the handlers *)

Lemma truthy_not_nullish (v : value) : truthy v = true -> nullish v = false.
Proof. by destruct v. Qed.

Lemma number_lt_of_Z (a b : Z) :
  number_lt (number_of_Z a) (number_of_Z b) = bool_decide (a < b).
Proof.
  unfold number_lt, number_of_Z, Qle_bool. simpl. rewrite !Z.mul_1_r.
  case_bool_decide; [apply negb_true_iff | apply negb_false_iff];
    [apply Z.leb_gt | apply Z.leb_le]; lia.
Qed.

Section HandlerFacts.
Context {rt : Runtime} {idp : Provider}.
Variables USER_POOL_ID USER_POOL_CLIENT_ID : value.

(** A comparison with a number converts nothing. *)
Lemma js_lt_number (n m : number) : js_lt (VNum n) m = Ok (number_lt n m).
Proof. reflexivity. Qed.

(** [undefined < n] is false: [undefined] converts to [NaN]. *)
Lemma js_lt_undefined (n : number) : js_lt VUndefined n = Ok false.
Proof. reflexivity. Qed.

(** On [undefined], [null], booleans, numbers and strings the comparison
    always has a value; only the conversion of an object can throw. *)
Lemma js_lt_primitive (v : value) (n : number) :
  match v with
  | VArr _ | VObj _ | VDate _ | VHost _ => True
  | _ => ∃ b : bool, js_lt v n = Ok b
  end.
Proof. destruct v; simpl; eauto. Qed.

(** Runs [validate] up to the point where the payload is at hand. *)
Ltac validate_past_decode Hdecodes :=
  let body := fresh "body" in
  let token := fresh "token" in
  let decodedHeader := fresh "decodedHeader" in
  let Hbody := fresh "Hbody" in
  let Htoken := fresh "Htoken" in
  let Htruthy := fresh "Htruthy" in
  let Hheader := fresh "Hheader" in
  let Hheader_truthy := fresh "Hheader_truthy" in
  let Hdecoded := fresh "Hdecoded" in
  let Hdecoded_truthy := fresh "Hdecoded_truthy" in
  destruct Hdecodes as (body & token & decodedHeader & Hbody & Htoken & Htruthy &
                        Hheader & Hheader_truthy & Hdecoded & Hdecoded_truthy);
  unfold validate, try_catch, validate_try;
  unfold mbind, io_bind, mret, io_ret, lift, current_time;
  rewrite Hbody, Htoken, Htruthy; simpl;
  rewrite Hheader, Hheader_truthy; simpl;
  rewrite Hdecoded, Hdecoded_truthy; simpl;
  rewrite !(get_defined _ _ (truthy_not_nullish _ Hdecoded_truthy)).

(** With [exp] a whole number of seconds, the token has expired exactly
    when [exp] is below the clock's reading in whole seconds. *)
Lemma validate_integer_exp (event : Lambda.APIGatewayProxyEvent) (w : world)
    (decoded : value) (exp : Z) :
  decodes_to event decoded ->
  property decoded "exp" = VNum (number_of_Z exp) ->
  validate event w =
    (Ok (validate_outcome decoded (bool_decide (exp < Date_now w / 1000))), w).
Proof.
  intros Hdecodes Hexp. validate_past_decode Hdecodes.
  rewrite Hexp, js_lt_number, number_lt_of_Z. unfold validate_outcome.
  destruct (bool_decide (exp < Date_now w / 1000)); [done|].
  rewrite <- Hexp.
  by destruct (negb (strict_eq_string (property decoded "token_use") "access") &&
               negb (strict_eq_string (property decoded "token_use") "id")).
Qed.

(** C1: when the token of a request to [validate] decodes to a payload, the
    answer is the 401 [TOKEN_EXPIRED] error if the payload's [exp] is less
    than the current time in seconds; otherwise the 401 [INVALID_TOKEN_TYPE]
    error if [token_use] is neither [access] nor [id]; otherwise the 200
    envelope whose data are the payload's [sub], [email], [token_use], [exp]
    and [iat]. Expiry is tested first. *)
Theorem validate_decoded_payload (event : Lambda.APIGatewayProxyEvent) (w : world)
    (decoded : value) (expired : bool) :
  decodes_to event decoded ->
  js_lt (property decoded "exp") (number_of_Z (Date_now w / 1000)) = Ok expired ->
  validate event w =
    (Ok (if expired
         then createErrorResponse 401 "TOKEN_EXPIRED" "Token has expired" VUndefined
         else if negb (strict_eq_string (property decoded "token_use") "access") &&
                 negb (strict_eq_string (property decoded "token_use") "id")
         then createErrorResponse 401 "INVALID_TOKEN_TYPE" "Invalid token type" VUndefined
         else createResponse 200
                (VObj [("message", VStr "Token is valid");
                       ("data", VObj [("sub", property decoded "sub");
                                      ("email", property decoded "email");
                                      ("tokenType", property decoded "token_use");
                                      ("expiresAt", property decoded "exp");
                                      ("issuedAt", property decoded "iat")])])
                ∅),
     w).
Proof.
  intros Hdecodes Hexp. validate_past_decode Hdecodes.
  rewrite Hexp. destruct expired; [done|].
  by destruct (negb (strict_eq_string (property decoded "token_use") "access") &&
               negb (strict_eq_string (property decoded "token_use") "id")).
Qed.

(** C9: when the decoded payload has no [exp] at all, the expiry comparison
    is false, so [validate] never answers [TOKEN_EXPIRED]: the answer is
    the [INVALID_TOKEN_TYPE] error or the success envelope, as [token_use]
    decides. That the runtime supplies no [exp] of its own is a fact about
    the runtime. *)
Theorem validate_without_exp (event : Lambda.APIGatewayProxyEvent) (w : world)
    (decoded : value) :
  decodes_to event decoded ->
  own_property decoded "exp" = None ->
  builtin_property decoded "exp" = VUndefined ->
  js_lt (property decoded "exp") (number_of_Z (Date_now w / 1000)) = Ok false ∧
  validate event w =
    (Ok (if negb (strict_eq_string (property decoded "token_use") "access") &&
            negb (strict_eq_string (property decoded "token_use") "id")
         then createErrorResponse 401 "INVALID_TOKEN_TYPE" "Invalid token type" VUndefined
         else createResponse 200
                (VObj [("message", VStr "Token is valid");
                       ("data", VObj [("sub", property decoded "sub");
                                      ("email", property decoded "email");
                                      ("tokenType", property decoded "token_use");
                                      ("expiresAt", VUndefined);
                                      ("issuedAt", property decoded "iat")])])
                ∅),
     w).
Proof.
  intros Hdecodes Hown Hbuiltin.
  assert (property decoded "exp" = VUndefined) as Hexp.
  { unfold property. by rewrite Hown. }
  split; [by rewrite Hexp|].
  validate_past_decode Hdecodes. rewrite Hexp. simpl.
  by destruct (negb (strict_eq_string (property decoded "token_use") "access") &&
               negb (strict_eq_string (property decoded "token_use") "id")).
Qed.

(** C5: [logout] answers 200 with the message [Logout successful] and
    leaves the world as it found it: nothing is sent to the provider,
    whatever its state. *)
Theorem logout_spec (w : world) :
  logout w =
    (Ok (createResponse 200 (VObj [("message", VStr "Logout successful")]) ∅), w) ∧
  statusCode (createResponse 200 (VObj [("message", VStr "Logout successful")]) ∅) = 200 ∧
  body (createResponse 200 (VObj [("message", VStr "Logout successful")]) ∅) =
    JSON_stringify (VObj [("message", VStr "Logout successful")]).
Proof. done. Qed.

(** ** Reasoning about [io] *)

Lemma returns_ret {A : Type} (P : A -> Prop) (a : A) : P a -> returns P (mret a).
Proof. intros H w a' w' [= <- _]. exact H. Qed.

Lemma returns_bind {A B : Type} (P : B -> Prop) (m : io A) (f : A -> io B) :
  (∀ a : A, returns P (f a)) -> returns P (m ≫= f).
Proof.
  intros H w b w'. unfold mbind, io_bind.
  destruct (m w) as [[a|e] w1]; [apply H | discriminate].
Qed.

Lemma well_formed_createResponse (code : Z) (data : value) :
  code ∈ status_codes -> well_formed (createResponse code data ∅).
Proof.
  intros H. split; [exact H|]. split; [|by exists data].
  simpl. by rewrite (left_id_L ∅ (∪)).
Qed.

Lemma well_formed_createErrorResponse (code : Z) (error message : string)
    (details : value) :
  code ∈ status_codes -> well_formed (createErrorResponse code error message details).
Proof. apply well_formed_createResponse. Qed.

Ltac known_status :=
  unfold status_codes;
  repeat first [ apply list_elem_of_here | apply list_elem_of_further ].

Ltac well_formed_response :=
  first [ apply well_formed_createErrorResponse | apply well_formed_createResponse ];
  known_status.

(** Walks through a [try] block: every [return] in it builds a well-formed
    response. *)
Ltac returns_well_formed :=
  repeat first
    [ apply returns_ret; well_formed_response
    | apply returns_bind; intros ?
    | match goal with
      | |- returns _ (if ?b then _ else _) => destruct b
      | |- returns _ (match ?x with _ => _ end) => destruct x
      end ].

Lemma unrecognised_eqb (name message known : string) :
  unrecognised (JsError name message) -> known ∈ taxonomy ->
  String.eqb name known = false.
Proof. intros H Hknown. apply String.eqb_neq. by intros ->. Qed.

Ltac in_taxonomy :=
  unfold taxonomy;
  repeat first [ apply list_elem_of_here | apply list_elem_of_further ].

(** Settles a [catch] block on an unrecognised error: every comparison of
    the error's name with a known one fails. *)
Ltac catch_unrecognised :=
  let H := fresh "H" in
  intros [name message | v] H; [|reflexivity];
  simpl; unfold internal_error; simpl;
  repeat (erewrite (unrecognised_eqb name message) by (first [exact H | in_taxonomy]));
  reflexivity.

Ltac catch_well_formed :=
  intros [name message | v]; simpl; unfold internal_error;
  repeat match goal with
         | |- context [String.eqb ?a ?b] => destruct (String.eqb a b)
         end;
  well_formed_response.

Lemma try_catch_contains (body : io ApiResponse) (label : string)
    (catch : thrown -> ApiResponse) (w : world) :
  returns well_formed body ->
  (∀ error : thrown, well_formed (catch error)) ->
  (∀ error : thrown, unrecognised error -> catch error = internal_error error) ->
  ∃ (response : ApiResponse) (w' : world),
    try_catch body label catch w = (Ok response, w') ∧
    well_formed response ∧
    ∀ (error : thrown) (w1 : world),
      body w = (Throw error, w1) -> unrecognised error ->
      response = internal_error error.
Proof.
  intros Hbody Hcatch Hunknown. unfold try_catch.
  destruct (body w) as [[response|e] w1] eqn:Hrun.
  - exists response, w1. split; [done|]. split; [by eapply Hbody|].
    intros error w2 [=].
  - exists (catch e), (console_error label e w1). split; [done|].
    split; [apply Hcatch|]. intros error w2 [= <- _]. apply Hunknown.
Qed.

Lemma validate_returns (event : Lambda.APIGatewayProxyEvent) :
  returns well_formed (validate_try event).
Proof. unfold validate_try. returns_well_formed. Qed.

Lemma getUser_returns (event : Lambda.APIGatewayProxyEvent) :
  returns well_formed (getUser_try USER_POOL_ID event).
Proof. unfold getUser_try. returns_well_formed. Qed.

Lemma updateUser_returns (event : Lambda.APIGatewayProxyEvent) :
  returns well_formed (updateUser_try USER_POOL_ID event).
Proof. unfold updateUser_try. returns_well_formed. Qed.

Lemma deleteUser_returns (event : Lambda.APIGatewayProxyEvent) :
  returns well_formed (deleteUser_try USER_POOL_ID event).
Proof. unfold deleteUser_try. returns_well_formed. Qed.

Lemma changePassword_returns (event : Lambda.APIGatewayProxyEvent) :
  returns well_formed (changePassword_try USER_POOL_ID event).
Proof. unfold changePassword_try. returns_well_formed. Qed.

Lemma login_returns (event : Lambda.APIGatewayProxyEvent) :
  returns well_formed (login_try USER_POOL_ID USER_POOL_CLIENT_ID event).
Proof. unfold login_try. returns_well_formed. Qed.

Lemma register_returns (event : Lambda.APIGatewayProxyEvent) :
  returns well_formed (register_try USER_POOL_ID event).
Proof. unfold register_try. returns_well_formed. Qed.

Lemma refreshToken_returns (event : Lambda.APIGatewayProxyEvent) :
  returns well_formed (refreshToken_try USER_POOL_ID USER_POOL_CLIENT_ID event).
Proof. unfold refreshToken_try. returns_well_formed. Qed.

Lemma logout_returns : returns well_formed logout_try.
Proof. unfold logout_try. returns_well_formed. Qed.

(** C2: every handler resolves, whatever the request and whatever the
    provider does, to a well-formed envelope; and when its [try] block
    throws an error whose name is none of the names the [catch] blocks
    know, or something that is not an [Error], the envelope is the 500
    [INTERNAL_ERROR] response with the error's message as details. *)
Theorem handlers_contain_failures
    (attempt handler : Lambda.APIGatewayProxyEvent -> io ApiResponse)
    (event : Lambda.APIGatewayProxyEvent) (w : world) :
  (attempt, handler) ∈ handlers USER_POOL_ID USER_POOL_CLIENT_ID ->
  ∃ (response : ApiResponse) (w' : world),
    handler event w = (Ok response, w') ∧
    well_formed response ∧
    ∀ (error : thrown) (w1 : world),
      attempt event w = (Throw error, w1) ->
      match error with
      | JsError name _ => name ∉ taxonomy
      | NonError _ => True
      end ->
      response =
        createErrorResponse 500 "INTERNAL_ERROR" "Internal server error"
          (VStr (errorMessage error)).
Proof.
  intros Hin. unfold handlers in Hin.
  repeat (apply elem_of_cons in Hin as [[= -> ->] | Hin]);
    [ .. | by apply elem_of_nil in Hin ];
    apply try_catch_contains;
    first [ apply login_returns | apply register_returns | apply refreshToken_returns
          | apply logout_returns | apply validate_returns | apply getUser_returns
          | apply updateUser_returns | apply deleteUser_returns
          | apply changePassword_returns
          | catch_well_formed | catch_unrecognised ].
Qed.

(** Takes a finished run [H : m w = (r, w')] apart, one step at a time. *)
Ltac run_inversion H :=
  unfold mbind, io_bind, mret, io_ret, lift in H;
  repeat match type of H with
         | context [match ?x with _ => _ end] =>
             destruct x eqn:?; simpl in H; try discriminate H
         | context [if ?b then _ else _] =>
             destruct b eqn:?; simpl in H; try discriminate H
         end.

(** Every command sent is logged, and only [send] writes to the log. *)
Lemma send_sent {R : Type} (command : Cognito.command R) (w w' : world)
    (r : result R) :
  send command w = (r, w') -> sent w' = sent w ++ [Cognito.Call command].
Proof.
  unfold send. destruct (provider_send R command (cognito w)).
  by intros [= _ <-].
Qed.

Lemma register_catch_status (error : thrown) :
  statusCode (register_catch error) ≠ 201.
Proof.
  destruct error as [name message | v]; simpl; [|done].
  repeat match goal with
         | |- context [String.eqb ?a ?b] => destruct (String.eqb a b)
         end; done.
Qed.

(** C10: whenever [register] answers 201, it has sent the provider exactly
    two commands, the first of which creates the user with the attribute
    [email_verified] set to ['true'], whatever the request said. *)
Theorem register_marks_email_verified (event : Lambda.APIGatewayProxyEvent)
    (w w' : world) (response : ApiResponse) :
  register USER_POOL_ID event w = (Ok response, w') ->
  statusCode response = 201 ->
  ∃ (email password : value) (userAttributes : list (string * value)),
    sent w' = sent w ++
      [ Cognito.Call (Cognito.AdminCreateUserCommand USER_POOL_ID email
                        userAttributes "SUPPRESS" password);
        Cognito.Call (Cognito.AdminSetUserPasswordCommand USER_POOL_ID email
                        password true) ] ∧
    ("email_verified", VStr "true") ∈ userAttributes.
Proof.
  unfold register, try_catch.
  destruct (register_try USER_POOL_ID event w) as [[r|e] w1] eqn:Hrun;
    intros [= <- <-] Hstatus.
  2: { by destruct (register_catch_status e). }
  clear Hstatus. unfold register_try in Hrun. run_inversion Hrun.
  repeat match goal with
         | Hsend : send _ _ = _ |- _ => apply send_sent in Hsend
         end.
  injection Hrun as _ <-.
  eexists _, _, _. split.
  - etrans; [eassumption|]. etrans; [apply (f_equal (fun l => l ++ _)); eassumption|].
    symmetry. apply (app_assoc _ [_] [_]).
  - apply list_elem_of_further, list_elem_of_here.
Qed.

(** A value that has no own property of a name, and that the runtime
    gives none, reads as [undefined] there. *)
Lemma property_absent (v : value) (k : string) :
  own_property v k = None -> builtin_property v k = VUndefined ->
  property v k = VUndefined.
Proof. intros Hown Hbuiltin. unfold property. by rewrite Hown. Qed.

(** C4, amended: when the bearer token of a request to [updateUser] decodes
    to something other than [null] or [undefined], and the body parses to
    a value other than [null] on which none of [firstName], [lastName] and
    [email] is defined (each reads as [undefined]), the answer is the 400
    [NO_UPDATES] error and the world is as before: nothing is sent to the
    provider and its state is unchanged. *)
Theorem updateUser_no_updates (event : Lambda.APIGatewayProxyEvent) (w : world)
    (token : string) (decoded body : value) :
  getAuthHeader event = Ok token ->
  jwt_decode (VStr token) false = Ok decoded ->
  nullish decoded = false ->
  parseRequestBody event = Ok body ->
  nullish body = false ->
  property body "firstName" = VUndefined ->
  property body "lastName" = VUndefined ->
  property body "email" = VUndefined ->
  updateUser USER_POOL_ID event w =
    (Ok (createErrorResponse 400 "NO_UPDATES" "No valid fields to update" VUndefined), w).
Proof.
  intros Htoken Hdecoded Hnullish Hbody Hbody_nullish HfirstName HlastName Hemail.
  unfold updateUser, try_catch, updateUser_try, getUserFromToken.
  unfold mbind, io_bind, mret, io_ret, lift.
  rewrite Htoken. simpl. rewrite Hdecoded. simpl.
  rewrite !(get_defined decoded _ Hnullish). simpl.
  rewrite Hbody. rewrite !(get_defined body _ Hbody_nullish).
  by rewrite HfirstName, HlastName, Hemail.
Qed.

(** Whether or not the token decodes: as long as the body, if it parses,
    defines none of the three fields, [updateUser] sends nothing. *)
Lemma updateUser_without_fields_sends_nothing (event : Lambda.APIGatewayProxyEvent)
    (w w' : world) (r : result ApiResponse) :
  (∀ body : value,
     parseRequestBody event = Ok body ->
     ∀ field : string, field ∈ ["firstName"; "lastName"; "email"] ->
     property body field = VUndefined) ->
  updateUser USER_POOL_ID event w = (r, w') ->
  cognito w' = cognito w ∧ sent w' = sent w.
Proof.
  intros Hfields. unfold updateUser, try_catch.
  destruct (updateUser_try USER_POOL_ID event w) as [r1 w1] eqn:Hrun.
  assert (cognito w1 = cognito w ∧ sent w1 = sent w) as Hsame.
  { unfold updateUser_try in Hrun.
    unfold mbind, io_bind, mret, io_ret, lift in Hrun.
    destruct (getAuthHeader event); [|by injection Hrun as _ <-].
    destruct (getUserFromToken _) as [[sub email]|]; [|by injection Hrun as _ <-].
    destruct (parseRequestBody event) as [body|] eqn:Hbody;
      [|by injection Hrun as _ <-].
    unfold get in Hrun. destruct (nullish body); [by injection Hrun as _ <-|].
    rewrite !(Hfields body eq_refl) in Hrun
      by (repeat first [ apply list_elem_of_here | apply list_elem_of_further ]).
    simpl in Hrun. by injection Hrun as _ <-. }
  destruct r1; by intros [= _ <-].
Qed.

End HandlerFacts.

(** * Further properties of the request helpers *)

Section MoreRequestHelpers.
Context {rt : Runtime}.

(** The headers of a response are the caller's, and for every name the
    caller does not set, the fixed one. *)
Lemma createResponse_headers (code : Z) (data : value)
    (extra : gmap string string) (name : string) :
  headers (createResponse code data extra) !! name =
    match extra !! name with
    | Some v => Some v
    | None => default_headers !! name
    end.
Proof.
  simpl. rewrite lookup_union. by destruct (extra !! name), (default_headers !! name).
Qed.

Lemma get_ok_not_nullish (data v : value) (field : string) :
  get data field = Ok v -> nullish data = false.
Proof. unfold get. by destruct (nullish data). Qed.

Lemma missing_fields_defined (data : value) (names : list string) :
  nullish data = false ->
  missing_fields data names =
    Ok (List.filter (fun field => negb (truthy (property data field))) names).
Proof.
  intros Hdata. induction names as [|field names IH]; [done|].
  simpl. rewrite (get_defined _ _ Hdata). simpl. rewrite IH. simpl.
  by destruct (truthy (property data field)).
Qed.

Lemma missing_fields_nullish (data : value) (field : string) (names : list string) :
  nullish data = true ->
  missing_fields data (field :: names) =
    Throw (JsError "TypeError" (nullish_read_message data field)).
Proof. intros Hdata. simpl. unfold get. by rewrite Hdata. Qed.

(** The check passes on data that has every name truthy. *)
Lemma validateRequiredFields_present (data : value) (names : list string) :
  nullish data = false ->
  (∀ field : string, field ∈ names -> truthy (property data field) = true) ->
  validateRequiredFields data names = Ok tt.
Proof.
  intros Hdata Hall. unfold validateRequiredFields.
  rewrite (missing_fields_defined _ _ Hdata). simpl.
  replace (List.filter _ names) with (@nil string); [done|].
  symmetry. induction names as [|field names IH]; [done|]. simpl.
  rewrite (Hall field) by apply list_elem_of_here. simpl.
  apply IH. intros f Hf. apply Hall. by apply list_elem_of_further.
Qed.

(** X1: [validateRequiredFields] returns normally exactly when every
    required name can be read from the data and reads truthy; so after it
    has passed, reading a required field neither throws nor gives a falsy
    value. With no names it passes on anything, [null] included. *)
Theorem validateRequiredFields_ok_iff (data : value) (names : list string) :
  validateRequiredFields data names = Ok tt ↔
  ∀ field : string, field ∈ names ->
    ∃ v : value, get data field = Ok v ∧ truthy v = true.
Proof.
  split.
  - intros Hok field Hfield.
    destruct (nullish data) eqn:Hdata.
    + destruct names as [|first names]; [by apply elem_of_nil in Hfield|].
      unfold validateRequiredFields in Hok.
      by rewrite (missing_fields_nullish _ _ _ Hdata) in Hok.
    + exists (property data field). split; [by apply get_defined|].
      unfold validateRequiredFields in Hok.
      rewrite (missing_fields_defined _ _ Hdata) in Hok. simpl in Hok.
      destruct (truthy (property data field)) eqn:Htruthy; [done|].
      assert (field ∈ List.filter (fun f => negb (truthy (property data f))) names)
        as Hin.
      { apply list_elem_of_In, filter_In. split; [by apply list_elem_of_In|].
        by rewrite Htruthy. }
      destruct (List.filter _ names); [by apply elem_of_nil in Hin | done].
  - intros Hall. destruct names as [|first names]; [done|].
    destruct (Hall first (list_elem_of_here _ _)) as (v & Hget & _).
    apply validateRequiredFields_present; [by eapply get_ok_not_nullish|].
    intros field Hfield. destruct (Hall field Hfield) as (v' & Hget' & Htruthy).
    rewrite (get_defined _ _ (get_ok_not_nullish _ _ _ Hget)) in Hget'.
    by injection Hget' as ->.
Qed.

(** All that [parseRequestBody] throws is its own error. *)
Lemma parseRequestBody_throws (event : Lambda.APIGatewayProxyEvent) (error : thrown) :
  parseRequestBody event = Throw error ->
  error = Error "Invalid JSON in request body".
Proof.
  unfold parseRequestBody. destruct (JSON_parse _); [done|]. by intros [= <-].
Qed.

(** All that [getAuthHeader] throws is one of its two errors. *)
Lemma getAuthHeader_throws (event : Lambda.APIGatewayProxyEvent) (error : thrown) :
  getAuthHeader event = Throw error ->
  error = Error "Authorization header is required" ∨
  error = Error "Authorization header must be a Bearer token".
Proof.
  unfold getAuthHeader. destruct (authHeader event) as [s|]; [|intros [= <-]; by left].
  destruct (String.eqb s EmptyString); [intros [= <-]; by left|].
  destruct (startsWith s "Bearer "); [done|]. intros [= <-]. by right.
Qed.

End MoreRequestHelpers.

(** * Further properties of the handlers *)

Section MoreHandlerFacts.
Context {rt : Runtime} {idp : Provider}.
Variables USER_POOL_ID USER_POOL_CLIENT_ID : value.

(** ** What a computation does to the world *)

Lemma send_run {R : Type} (command : Cognito.command R) (w : world)
    (reply : result R) (p : provider_state) :
  provider_send R command (cognito w) = (reply, p) ->
  send command w = (reply, with_sent w p [Cognito.Call command]).
Proof. intros H. unfold send. by rewrite H. Qed.

Lemma quiet_ret {A : Type} (a : A) : quiet (mret a).
Proof. by intros w. Qed.

Lemma quiet_lift {A : Type} (r : result A) : quiet (lift r).
Proof. by intros w. Qed.

Lemma quiet_current_time : quiet current_time.
Proof. by intros w. Qed.

Lemma quiet_bind {A B : Type} (m : io A) (f : A -> io B) :
  quiet m -> (∀ a : A, quiet (f a)) -> quiet (m ≫= f).
Proof.
  intros Hm Hf w. specialize (Hm w). unfold mbind, io_bind.
  destruct (m w) as [[a|e] w1]; simpl in *; [|done].
  destruct (Hf a w1) as [Hcognito Hsent]. destruct Hm as [<- <-]. done.
Qed.

Lemma quiet_try_catch (body : io ApiResponse) (label : string)
    (catch : thrown -> ApiResponse) :
  quiet body -> quiet (try_catch body label catch).
Proof.
  intros Hbody w. specialize (Hbody w). unfold try_catch.
  by destruct (body w) as [[r|e] w1].
Qed.

Ltac quiet_steps :=
  repeat first
    [ apply quiet_ret
    | apply quiet_lift
    | apply quiet_current_time
    | apply quiet_bind; [|intros ?]
    | match goal with
      | |- quiet (if ?b then _ else _) => destruct b
      | |- quiet (match ?x with _ => _ end) => destruct x
      end ].

Lemma sends_ret {A : Type} (n : nat) (a : A) : sends_at_most n (mret a).
Proof. intros w. exists []. simpl. split; [by rewrite app_nil_r | lia]. Qed.

Lemma sends_bind_lift {A B : Type} (n : nat) (r : result A) (f : A -> io B) :
  (∀ a : A, sends_at_most n (f a)) -> sends_at_most n (lift r ≫= f).
Proof.
  intros Hf w. unfold mbind, io_bind, lift. destruct r as [a|e]; [apply Hf|].
  exists []. simpl. split; [by rewrite app_nil_r | lia].
Qed.

Lemma sends_bind_send {R B : Type} (n : nat) (command : Cognito.command R)
    (f : R -> io B) :
  (∀ a : R, sends_at_most n (f a)) -> sends_at_most (S n) (send command ≫= f).
Proof.
  intros Hf w. unfold mbind, io_bind.
  destruct (provider_send R command (cognito w)) as [reply p] eqn:Hsend.
  rewrite (send_run _ _ _ _ Hsend). destruct reply as [a|e].
  - destruct (Hf a (with_sent w p [Cognito.Call command])) as (commands & Hsent & Hn).
    exists (Cognito.Call command :: commands). split; [|simpl; lia].
    rewrite Hsent. simpl. by rewrite <- app_assoc.
  - exists [Cognito.Call command]. split; [done | simpl; lia].
Qed.

Lemma sends_try_catch (n : nat) (body : io ApiResponse) (label : string)
    (catch : thrown -> ApiResponse) :
  sends_at_most n body -> sends_at_most n (try_catch body label catch).
Proof.
  intros Hbody w. destruct (Hbody w) as (commands & Hsent & Hn).
  exists commands. split; [|done]. unfold try_catch.
  by destruct (body w) as [[r|e] w1].
Qed.

Lemma quiet_sends {A : Type} (n : nat) (m : io A) : quiet m -> sends_at_most n m.
Proof.
  intros Hm w. exists []. destruct (Hm w) as [_ ->].
  split; [by rewrite app_nil_r | simpl; lia].
Qed.

Ltac sends_steps :=
  repeat first
    [ apply sends_ret
    | apply sends_bind_lift; intros ?
    | apply sends_bind_send; intros ?
    | match goal with
      | |- sends_at_most _ (if ?b then _ else _) => destruct b
      | |- sends_at_most _ (match ?x with _ => _ end) => destruct x
      end ].

Lemma clock_blind_ret {A : Type} (a : A) : clock_blind (mret a).
Proof. by intros w t. Qed.

Lemma clock_blind_bind_lift {A B : Type} (r : result A) (f : A -> io B) :
  (∀ a : A, clock_blind (f a)) -> clock_blind (lift r ≫= f).
Proof.
  intros Hf w t. unfold mbind, io_bind, lift. destruct r as [a|e]; [apply Hf | done].
Qed.

Lemma clock_blind_bind_send {R B : Type} (command : Cognito.command R)
    (f : R -> io B) :
  (∀ a : R, clock_blind (f a)) -> clock_blind (send command ≫= f).
Proof.
  intros Hf w t. unfold mbind, io_bind, send. simpl.
  destruct (provider_send R command (cognito w)) as [[a|e] p]; [|done].
  apply (Hf a (with_sent w p [Cognito.Call command]) t).
Qed.

Lemma clock_blind_try_catch (body : io ApiResponse) (label : string)
    (catch : thrown -> ApiResponse) :
  clock_blind body -> clock_blind (try_catch body label catch).
Proof.
  intros Hbody w t. unfold try_catch. rewrite (Hbody w t).
  by destruct (body w) as [[r|e] w1].
Qed.

Ltac clock_blind_steps :=
  repeat first
    [ apply clock_blind_ret
    | apply clock_blind_bind_lift; intros ?
    | apply clock_blind_bind_send; intros ?
    | match goal with
      | |- clock_blind (if ?b then _ else _) => destruct b
      | |- clock_blind (match ?x with _ => _ end) => destruct x
      end ].

(** ** [validate] *)

(** X2: the three ways [validate] turns a request down before it looks at
    any claim. A body without a truthy [token] gets the 400 [MISSING_TOKEN]
    error and nothing is decoded; a token for which [jwt.decode] with
    [complete] gives nothing gets the 401 [INVALID_TOKEN] error [Invalid
    token format]; one for which the plain [jwt.decode] gives nothing gets
    the 401 [INVALID_TOKEN] error [Invalid token]. The world is left as it
    was. *)
Theorem validate_early_exits (event : Lambda.APIGatewayProxyEvent) (w : world)
    (body token : value) :
  parseRequestBody event = Ok body ->
  get body "token" = Ok token ->
  (truthy token = false ->
   validate event w =
     (Ok (createErrorResponse 400 "MISSING_TOKEN" "Token is required" VUndefined), w)) ∧
  (∀ decodedHeader : value,
     truthy token = true ->
     jwt_decode token true = Ok decodedHeader -> truthy decodedHeader = false ->
     validate event w =
       (Ok (createErrorResponse 401 "INVALID_TOKEN" "Invalid token format" VUndefined),
        w)) ∧
  (∀ decodedHeader decoded : value,
     truthy token = true ->
     jwt_decode token true = Ok decodedHeader -> truthy decodedHeader = true ->
     jwt_decode token false = Ok decoded -> truthy decoded = false ->
     validate event w =
       (Ok (createErrorResponse 401 "INVALID_TOKEN" "Invalid token" VUndefined), w)).
Proof.
  intros Hbody Htoken.
  unfold validate, try_catch, validate_try, mbind, io_bind, mret, io_ret, lift.
  rewrite Hbody, Htoken. simpl. split; [|split].
  - by intros ->.
  - intros decodedHeader -> Hheader Hfalsy. simpl. by rewrite Hheader, Hfalsy.
  - intros decodedHeader decoded -> Hheader Htruthy Hdecoded Hfalsy. simpl.
    rewrite Hheader, Htruthy. simpl. by rewrite Hdecoded, Hfalsy.
Qed.

(** X3: [validate] is local. Whatever the request and whatever comes of
    it, it sends the provider nothing and leaves the provider's state
    alone. *)
Theorem validate_is_local (event : Lambda.APIGatewayProxyEvent) (w : world) :
  cognito (validate event w).2 = cognito w ∧
  sent (validate event w).2 = sent w.
Proof.
  revert w. change (quiet (validate event)).
  unfold validate. apply quiet_try_catch. unfold validate_try. quiet_steps.
Qed.

(** ** Requests that are turned down before the provider is asked *)

(** X4: a body that is not JSON is an internal error to the handlers that
    start by parsing it. [login], [register], [refreshToken] and [validate]
    answer 500 [INTERNAL_ERROR] with [Invalid JSON in request body] as
    details, write the error to the console, and send nothing. *)
Theorem malformed_body_answers_500
    (handler : Lambda.APIGatewayProxyEvent -> io ApiResponse) (label : string)
    (event : Lambda.APIGatewayProxyEvent) (w : world) (error : thrown) :
  parseRequestBody event = Throw error ->
  (handler, label) ∈
    [ (login USER_POOL_ID USER_POOL_CLIENT_ID, "Login error:");
      (register USER_POOL_ID, "Registration error:");
      (refreshToken USER_POOL_ID USER_POOL_CLIENT_ID, "Refresh token error:");
      (validate, "Token validation error:") ] ->
  handler event w =
    (Ok (createErrorResponse 500 "INTERNAL_ERROR" "Internal server error"
           (VStr "Invalid JSON in request body")),
     console_error label (Error "Invalid JSON in request body") w).
Proof.
  intros Hbody Hin. pose proof (parseRequestBody_throws _ _ Hbody) as ->.
  repeat (apply elem_of_cons in Hin as [[= -> ->] | Hin]);
    [ .. | by apply elem_of_nil in Hin ].
  all: unfold login, register, refreshToken, validate, try_catch,
         login_try, register_try, refreshToken_try, validate_try,
         mbind, io_bind, lift.
  all: by rewrite Hbody.
Qed.

(** X5: the handlers that want a bearer token answer a request without a
    usable [Authorization] header with 500 [INTERNAL_ERROR], not with a
    401: the details are the message of the error [getAuthHeader] threw,
    the error goes to the console, and nothing is sent. *)
Theorem unusable_header_answers_500
    (handler : Lambda.APIGatewayProxyEvent -> io ApiResponse) (label : string)
    (event : Lambda.APIGatewayProxyEvent) (w : world) (error : thrown) :
  getAuthHeader event = Throw error ->
  (handler, label) ∈
    [ (getUser USER_POOL_ID, "Get user error:");
      (updateUser USER_POOL_ID, "Update user error:");
      (deleteUser USER_POOL_ID, "Delete user error:");
      (changePassword USER_POOL_ID, "Change password error:") ] ->
  handler event w =
    (Ok (createErrorResponse 500 "INTERNAL_ERROR" "Internal server error"
           (VStr (errorMessage error))),
     console_error label error w) ∧
  (error = Error "Authorization header is required" ∨
   error = Error "Authorization header must be a Bearer token").
Proof.
  intros Hheader Hin. pose proof (getAuthHeader_throws _ _ Hheader) as Herror.
  split; [|exact Herror].
  repeat (apply elem_of_cons in Hin as [[= -> ->] | Hin]);
    [ .. | by apply elem_of_nil in Hin ].
  all: unfold getUser, updateUser, deleteUser, changePassword, try_catch,
         getUser_try, updateUser_try, deleteUser_try, changePassword_try,
         mbind, io_bind, lift.
  all: rewrite Hheader.
  all: by destruct Herror as [-> | ->].
Qed.

(** X6: a well-formed header whose token [jwt.decode] makes nothing of is
    an internal error as well. The four handlers read [sub] from [null],
    which throws, and answer 500 [INTERNAL_ERROR] with the [TypeError]'s
    message as details; nothing is sent. *)
Theorem undecodable_token_answers_500
    (handler : Lambda.APIGatewayProxyEvent -> io ApiResponse) (label : string)
    (event : Lambda.APIGatewayProxyEvent) (w : world)
    (token : string) (decoded : value) :
  getAuthHeader event = Ok token ->
  jwt_decode (VStr token) false = Ok decoded ->
  nullish decoded = true ->
  (handler, label) ∈
    [ (getUser USER_POOL_ID, "Get user error:");
      (updateUser USER_POOL_ID, "Update user error:");
      (deleteUser USER_POOL_ID, "Delete user error:");
      (changePassword USER_POOL_ID, "Change password error:") ] ->
  handler event w =
    (Ok (createErrorResponse 500 "INTERNAL_ERROR" "Internal server error"
           (VStr (nullish_read_message decoded "sub"))),
     console_error label (JsError "TypeError" (nullish_read_message decoded "sub")) w).
Proof.
  intros Hheader Hdecoded Hnullish Hin.
  repeat (apply elem_of_cons in Hin as [[= -> ->] | Hin]);
    [ .. | by apply elem_of_nil in Hin ].
  all: unfold getUser, updateUser, deleteUser, changePassword, try_catch,
         getUser_try, updateUser_try, deleteUser_try, changePassword_try,
         getUserFromToken, mbind, io_bind, lift.
  all: rewrite Hheader; simpl; rewrite Hdecoded; simpl.
  all: unfold get; by rewrite Hnullish.
Qed.

(** ** What the provider is asked, and what is made of its answer *)

(** [getUserFromToken] on a token that decodes. *)
Lemma getUserFromToken_decoded (token : string) (decoded : value) :
  jwt_decode (VStr token) false = Ok decoded ->
  nullish decoded = false ->
  ∃ sub : value, getUserFromToken token = Ok (sub, token_user decoded).
Proof.
  intros Hdecoded Hnullish. unfold getUserFromToken. rewrite Hdecoded. simpl.
  rewrite !(get_defined decoded _ Hnullish). simpl.
  eexists. f_equal. f_equal. unfold token_user, js_or.
  destruct (truthy (property decoded "email")) eqn:Hemail; [by rewrite Hemail|].
  destruct (truthy (property decoded "username")) eqn:Husername; by rewrite ?Husername.
Qed.

(** X7: [deleteUser] with a token that decodes sends one command, the
    deletion of the user the token names by its [email], or failing that by
    its [username], or failing that the empty name. It answers 200 when the
    provider accepts, 404 [USER_NOT_FOUND] when the provider throws a
    [UserNotFoundException], and 500 [INTERNAL_ERROR] with the error's
    message on anything else. Neither the token's expiry nor its
    [token_use] is looked at. *)
Theorem deleteUser_outcome (event : Lambda.APIGatewayProxyEvent) (w : world)
    (token : string) (decoded : value) (reply : result unit) (p : provider_state) :
  getAuthHeader event = Ok token ->
  jwt_decode (VStr token) false = Ok decoded ->
  nullish decoded = false ->
  provider_send unit
    (Cognito.AdminDeleteUserCommand USER_POOL_ID (token_user decoded))
    (cognito w) = (reply, p) ->
  deleteUser USER_POOL_ID event w =
    let w' :=
      with_sent w p
        [Cognito.Call (Cognito.AdminDeleteUserCommand USER_POOL_ID (token_user decoded))] in
    match reply with
    | Ok _ =>
        (Ok (createResponse 200 (VObj [("message", VStr "User deleted successfully")]) ∅),
         w')
    | Throw error =>
        (Ok (if is_named error "UserNotFoundException"
             then createErrorResponse 404 "USER_NOT_FOUND" "User not found" VUndefined
             else createErrorResponse 500 "INTERNAL_ERROR" "Internal server error"
                    (VStr (errorMessage error))),
         console_error "Delete user error:" error w')
    end.
Proof.
  intros Hheader Hdecoded Hnullish Hsend.
  destruct (getUserFromToken_decoded _ _ Hdecoded Hnullish) as (sub & Huser).
  unfold deleteUser, try_catch, deleteUser_try, mbind, io_bind, mret, io_ret, lift.
  rewrite Hheader, Huser. simpl. rewrite (send_run _ _ _ _ Hsend).
  destruct reply as [[]|error]; [done|].
  destruct error as [name message|v]; [|done]. simpl.
  by destruct (String.eqb name "UserNotFoundException").
Qed.

(** X8: [changePassword] with a token that decodes and a body in which
    [oldPassword] and [newPassword] are truthy sends one command, which
    sets [newPassword] as the permanent password of the user the token
    names. The old password is never sent: it is only required to be
    there. The answer is 200 when the provider accepts, 404, 400
    [INVALID_PASSWORD] or 500 according to the error it throws. *)
Theorem changePassword_outcome (event : Lambda.APIGatewayProxyEvent) (w : world)
    (token : string) (decoded body : value) (reply : result unit)
    (p : provider_state) :
  getAuthHeader event = Ok token ->
  jwt_decode (VStr token) false = Ok decoded ->
  nullish decoded = false ->
  parseRequestBody event = Ok body ->
  nullish body = false ->
  truthy (property body "oldPassword") = true ->
  truthy (property body "newPassword") = true ->
  provider_send unit
    (Cognito.AdminSetUserPasswordCommand USER_POOL_ID (token_user decoded)
       (property body "newPassword") true)
    (cognito w) = (reply, p) ->
  changePassword USER_POOL_ID event w =
    let w' :=
      with_sent w p
        [Cognito.Call (Cognito.AdminSetUserPasswordCommand USER_POOL_ID
                         (token_user decoded) (property body "newPassword") true)] in
    match reply with
    | Ok _ =>
        (Ok (createResponse 200
               (VObj [("message", VStr "Password changed successfully")]) ∅),
         w')
    | Throw error =>
        (Ok (if is_named error "UserNotFoundException"
             then createErrorResponse 404 "USER_NOT_FOUND" "User not found" VUndefined
             else if is_named error "InvalidPasswordException"
             then createErrorResponse 400 "INVALID_PASSWORD"
                    "Password does not meet requirements" VUndefined
             else createErrorResponse 500 "INTERNAL_ERROR" "Internal server error"
                    (VStr (errorMessage error))),
         console_error "Change password error:" error w')
    end.
Proof.
  intros Hheader Hdecoded Hnullish Hbody Hbody_nullish Hold Hnew Hsend.
  destruct (getUserFromToken_decoded _ _ Hdecoded Hnullish) as (sub & Huser).
  unfold changePassword, try_catch, changePassword_try.
  unfold mbind, io_bind, mret, io_ret, lift.
  rewrite Hheader, Huser. simpl. rewrite Hbody.
  rewrite (validateRequiredFields_present body ["oldPassword"; "newPassword"] Hbody_nullish).
  2: { intros field Hfield. apply list_elem_of_In in Hfield. simpl in Hfield.
       destruct Hfield as [<- | [<- | []]]; assumption. }
  rewrite (get_defined _ _ Hbody_nullish). rewrite (send_run _ _ _ _ Hsend).
  destruct reply as [[]|error]; [done|].
  destruct error as [name message|v]; [|done]. simpl.
  destruct (String.eqb name "UserNotFoundException"); [done|].
  by destruct (String.eqb name "InvalidPasswordException").
Qed.

(** X9: [updateUser] with a token that decodes and a body that defines at
    least one of [firstName], [lastName] and [email] sends one command: the
    update of the token's user with exactly the fields the body defines,
    as [given_name], [family_name] and [email], in that order. A field
    that is [null] or empty counts as defined and is sent as it is. *)
Theorem updateUser_outcome (event : Lambda.APIGatewayProxyEvent) (w : world)
    (token : string) (decoded body : value) (reply : result unit)
    (p : provider_state) :
  getAuthHeader event = Ok token ->
  jwt_decode (VStr token) false = Ok decoded ->
  nullish decoded = false ->
  parseRequestBody event = Ok body ->
  nullish body = false ->
  profile_updates body ≠ [] ->
  provider_send unit
    (Cognito.AdminUpdateUserAttributesCommand USER_POOL_ID (token_user decoded)
       (profile_updates body))
    (cognito w) = (reply, p) ->
  updateUser USER_POOL_ID event w =
    let w' :=
      with_sent w p
        [Cognito.Call (Cognito.AdminUpdateUserAttributesCommand USER_POOL_ID
                         (token_user decoded) (profile_updates body))] in
    match reply with
    | Ok _ =>
        (Ok (createResponse 200 (VObj [("message", VStr "User updated successfully")]) ∅),
         w')
    | Throw error =>
        (Ok (if is_named error "UserNotFoundException"
             then createErrorResponse 404 "USER_NOT_FOUND" "User not found" VUndefined
             else createErrorResponse 500 "INTERNAL_ERROR" "Internal server error"
                    (VStr (errorMessage error))),
         console_error "Update user error:" error w')
    end.
Proof.
  intros Hheader Hdecoded Hnullish Hbody Hbody_nullish Hupdates Hsend.
  destruct (getUserFromToken_decoded _ _ Hdecoded Hnullish) as (sub & Huser).
  unfold updateUser, try_catch, updateUser_try.
  unfold mbind, io_bind, mret, io_ret, lift.
  rewrite Hheader, Huser. simpl. rewrite Hbody.
  rewrite !(get_defined _ _ Hbody_nullish).
  assert ((if is_defined (property body "firstName")
           then [("given_name", property body "firstName")] else []) ++
          (if is_defined (property body "lastName")
           then [("family_name", property body "lastName")] else []) ++
          (if is_defined (property body "email")
           then [("email", property body "email")] else []) =
          profile_updates body) as ->.
  { unfold profile_updates. simpl.
    by destruct (is_defined (property body "firstName")),
               (is_defined (property body "lastName")),
               (is_defined (property body "email")). }
  destruct (profile_updates body) as [|update updates] eqn:Hlist; [done|].
  simpl. rewrite (send_run _ _ _ _ Hsend).
  destruct reply as [[]|error]; [done|].
  destruct error as [name message|v]; [|done]. simpl.
  by destruct (String.eqb name "UserNotFoundException").
Qed.

(** X10: [login] with a body in which [email] and [password] are truthy
    sends one command, an [ADMIN_NO_SRP_AUTH] authentication with the two
    as [USERNAME] and [PASSWORD]. If the provider answers with an
    authentication result the answer is 200 with the five token fields
    taken from it; if it answers without one, 401 [AUTHENTICATION_FAILED];
    if it throws, 400 [USER_NOT_CONFIRMED], 401 [INVALID_CREDENTIALS], 404
    [USER_NOT_FOUND] or 500 [INTERNAL_ERROR] by the error's name. *)
Theorem login_outcome (event : Lambda.APIGatewayProxyEvent) (w : world)
    (body : value) (reply : result Cognito.AdminInitiateAuthOutput)
    (p : provider_state) :
  parseRequestBody event = Ok body ->
  nullish body = false ->
  truthy (property body "email") = true ->
  truthy (property body "password") = true ->
  provider_send Cognito.AdminInitiateAuthOutput
    (Cognito.AdminInitiateAuthCommand USER_POOL_ID USER_POOL_CLIENT_ID
       "ADMIN_NO_SRP_AUTH"
       [("USERNAME", property body "email"); ("PASSWORD", property body "password")])
    (cognito w) = (reply, p) ->
  login USER_POOL_ID USER_POOL_CLIENT_ID event w =
    let w' :=
      with_sent w p
        [Cognito.Call
           (Cognito.AdminInitiateAuthCommand USER_POOL_ID USER_POOL_CLIENT_ID
              "ADMIN_NO_SRP_AUTH"
              [("USERNAME", property body "email");
               ("PASSWORD", property body "password")])] in
    match reply with
    | Ok output =>
        (Ok (match Cognito.AuthenticationResult output with
             | None =>
                 createErrorResponse 401 "AUTHENTICATION_FAILED" "Invalid credentials"
                   VUndefined
             | Some tokens =>
                 createResponse 200
                   (VObj [("message", VStr "Login successful");
                          ("data",
                           VObj [("accessToken", of_string (Cognito.AccessToken tokens));
                                 ("idToken", of_string (Cognito.IdToken tokens));
                                 ("refreshToken", of_string (Cognito.RefreshToken tokens));
                                 ("expiresIn", of_number (Cognito.ExpiresIn tokens));
                                 ("tokenType", of_string (Cognito.TokenType tokens))])])
                   ∅
             end),
         w')
    | Throw error =>
        (Ok (if is_named error "UserNotConfirmedException"
             then createErrorResponse 400 "USER_NOT_CONFIRMED" "User email not confirmed"
                    VUndefined
             else if is_named error "NotAuthorizedException"
             then createErrorResponse 401 "INVALID_CREDENTIALS"
                    "Invalid email or password" VUndefined
             else if is_named error "UserNotFoundException"
             then createErrorResponse 404 "USER_NOT_FOUND" "User not found" VUndefined
             else createErrorResponse 500 "INTERNAL_ERROR" "Internal server error"
                    (VStr (errorMessage error))),
         console_error "Login error:" error w')
    end.
Proof.
  intros Hbody Hnullish Hemail Hpassword Hsend.
  unfold login, try_catch, login_try, mbind, io_bind, mret, io_ret, lift.
  rewrite Hbody.
  rewrite (validateRequiredFields_present body ["email"; "password"] Hnullish).
  2: { intros field Hfield. apply list_elem_of_In in Hfield. simpl in Hfield.
       destruct Hfield as [<- | [<- | []]]; assumption. }
  rewrite !(get_defined _ _ Hnullish). rewrite (send_run _ _ _ _ Hsend).
  destruct reply as [output|error].
  - by destruct (Cognito.AuthenticationResult output).
  - destruct error as [name message|v]; [|done]. simpl.
    destruct (String.eqb name "UserNotConfirmedException"); [done|].
    destruct (String.eqb name "NotAuthorizedException"); [done|].
    by destruct (String.eqb name "UserNotFoundException").
Qed.

(** X11: [refreshToken] with a truthy [refreshToken] in the body sends one
    command, a [REFRESH_TOKEN_AUTH] authentication carrying it. On an
    authentication result the answer is 200 with the access token, the id
    token, the expiry and the token type, and no refresh token; without
    one, 401 [REFRESH_FAILED]; on a [NotAuthorizedException], 401
    [INVALID_REFRESH_TOKEN]; on any other error, 500. *)
Theorem refreshToken_outcome (event : Lambda.APIGatewayProxyEvent) (w : world)
    (body : value) (reply : result Cognito.AdminInitiateAuthOutput)
    (p : provider_state) :
  parseRequestBody event = Ok body ->
  nullish body = false ->
  truthy (property body "refreshToken") = true ->
  provider_send Cognito.AdminInitiateAuthOutput
    (Cognito.AdminInitiateAuthCommand USER_POOL_ID USER_POOL_CLIENT_ID
       "REFRESH_TOKEN_AUTH" [("REFRESH_TOKEN", property body "refreshToken")])
    (cognito w) = (reply, p) ->
  refreshToken USER_POOL_ID USER_POOL_CLIENT_ID event w =
    let w' :=
      with_sent w p
        [Cognito.Call
           (Cognito.AdminInitiateAuthCommand USER_POOL_ID USER_POOL_CLIENT_ID
              "REFRESH_TOKEN_AUTH" [("REFRESH_TOKEN", property body "refreshToken")])] in
    match reply with
    | Ok output =>
        (Ok (match Cognito.AuthenticationResult output with
             | None =>
                 createErrorResponse 401 "REFRESH_FAILED" "Invalid refresh token"
                   VUndefined
             | Some tokens =>
                 createResponse 200
                   (VObj [("message", VStr "Token refreshed successfully");
                          ("data",
                           VObj [("accessToken", of_string (Cognito.AccessToken tokens));
                                 ("idToken", of_string (Cognito.IdToken tokens));
                                 ("expiresIn", of_number (Cognito.ExpiresIn tokens));
                                 ("tokenType", of_string (Cognito.TokenType tokens))])])
                   ∅
             end),
         w')
    | Throw error =>
        (Ok (if is_named error "NotAuthorizedException"
             then createErrorResponse 401 "INVALID_REFRESH_TOKEN"
                    "Invalid or expired refresh token" VUndefined
             else createErrorResponse 500 "INTERNAL_ERROR" "Internal server error"
                    (VStr (errorMessage error))),
         console_error "Refresh token error:" error w')
    end.
Proof.
  intros Hbody Hnullish Htoken Hsend.
  unfold refreshToken, try_catch, refreshToken_try.
  unfold mbind, io_bind, mret, io_ret, lift.
  rewrite Hbody.
  rewrite (validateRequiredFields_present body ["refreshToken"] Hnullish).
  2: { intros field Hfield. apply list_elem_of_In in Hfield. simpl in Hfield.
       destruct Hfield as [<- | []]; assumption. }
  rewrite !(get_defined _ _ Hnullish). rewrite (send_run _ _ _ _ Hsend).
  destruct reply as [output|error].
  - by destruct (Cognito.AuthenticationResult output).
  - destruct error as [name message|v]; [|done]. simpl.
    by destruct (String.eqb name "NotAuthorizedException").
Qed.

Lemma with_sent_twice (w : world) (p1 p2 : provider_state)
    (first second : list Cognito.call) :
  with_sent (with_sent w p1 first) p2 second = with_sent w p2 (first ++ second).
Proof. unfold with_sent. simpl. by rewrite app_assoc. Qed.

(** X12: [register] with truthy [email] and [password] first asks the
    provider to create the user, with the password as temporary password,
    no invitation message, and the attributes [email], [email_verified],
    and [given_name] and [family_name] when [firstName] and [lastName] are
    truthy. If the creation is refused nothing more is sent. Otherwise it
    asks for the password to be made permanent; if that is refused the
    answer is an error although the user now exists, and no command undoes
    the creation. The answer is 201 only when both commands went through;
    a refusal is answered 409 [USER_EXISTS], 400 [INVALID_PASSWORD] or 500
    by the error's name. *)
Theorem register_outcome (event : Lambda.APIGatewayProxyEvent) (w : world)
    (body : value) (created changed : result unit) (p1 p2 : provider_state) :
  let email := property body "email" in
  let password := property body "password" in
  let userAttributes :=
    [("email", email); ("email_verified", VStr "true")] ++
    (if truthy (property body "firstName")
     then [("given_name", property body "firstName")] else []) ++
    (if truthy (property body "lastName")
     then [("family_name", property body "lastName")] else []) in
  let create :=
    Cognito.AdminCreateUserCommand USER_POOL_ID email userAttributes "SUPPRESS" password in
  let setPassword :=
    Cognito.AdminSetUserPasswordCommand USER_POOL_ID email password true in
  let answer (error : thrown) :=
    if is_named error "UsernameExistsException"
    then createErrorResponse 409 "USER_EXISTS" "User already exists" VUndefined
    else if is_named error "InvalidPasswordException"
    then createErrorResponse 400 "INVALID_PASSWORD"
           "Password does not meet requirements" VUndefined
    else createErrorResponse 500 "INTERNAL_ERROR" "Internal server error"
           (VStr (errorMessage error)) in
  parseRequestBody event = Ok body ->
  nullish body = false ->
  truthy email = true ->
  truthy password = true ->
  provider_send unit create (cognito w) = (created, p1) ->
  provider_send unit setPassword p1 = (changed, p2) ->
  register USER_POOL_ID event w =
    match created, changed with
    | Throw error, _ =>
        (Ok (answer error),
         console_error "Registration error:" error
           (with_sent w p1 [Cognito.Call create]))
    | Ok _, Throw error =>
        (Ok (answer error),
         console_error "Registration error:" error
           (with_sent w p2 [Cognito.Call create; Cognito.Call setPassword]))
    | Ok _, Ok _ =>
        (Ok (createResponse 201
               (VObj [("message", VStr "User registered successfully");
                      ("data", VObj [("email", email)])]) ∅),
         with_sent w p2 [Cognito.Call create; Cognito.Call setPassword])
    end.
Proof.
  intros email password userAttributes create setPassword answer
         Hbody Hnullish Hemail Hpassword Hcreate Hset.
  assert (∀ error, register_catch error = answer error) as Hcatch.
  { intros [name message|v]; [|done]. unfold answer. simpl.
    destruct (String.eqb name "UsernameExistsException"); [done|].
    by destruct (String.eqb name "InvalidPasswordException"). }
  unfold register, try_catch, register_try, mbind, io_bind, mret, io_ret, lift.
  rewrite Hbody.
  rewrite (validateRequiredFields_present body ["email"; "password"] Hnullish).
  2: { intros field Hfield. apply list_elem_of_In in Hfield. simpl in Hfield.
       destruct Hfield as [<- | [<- | []]]; assumption. }
  rewrite !(get_defined _ _ Hnullish).
  fold email password. change (_ ++ _ ++ _) with userAttributes. fold create.
  rewrite (send_run _ _ _ _ Hcreate).
  destruct created as [[]|error]; [|by rewrite Hcatch].
  fold setPassword.
  rewrite (send_run setPassword (with_sent w p1 [Cognito.Call create]) changed p2 Hset).
  rewrite with_sent_twice. simpl.
  destruct changed as [[]|error]; [done | by rewrite Hcatch].
Qed.

(** The attributes [getUser] collects: for every name but [__proto__], the
    value found is the last one the provider lists, or what was there
    before. *)
Lemma set_attribute_fold (name : string) (attributes : list Cognito.AttributeType)
    (collected : gmap string string) :
  name ≠ "__proto__" ->
  foldl set_attribute collected attributes !! name =
    match last_attribute name attributes with
    | Some v => Some v
    | None => collected !! name
    end.
Proof.
  intros Hname. revert collected.
  induction attributes as [|attr rest IH]; intros collected; [done|].
  simpl. rewrite IH. destruct (last_attribute name rest) as [v|]; [done|].
  unfold set_attribute.
  destruct (Cognito.Name attr) as [n|] eqn:Hn, (Cognito.Value attr) as [v|] eqn:Hv;
    simpl; rewrite ?andb_false_r; try done.
  - destruct (negb (String.eqb n EmptyString)) eqn:Hn_truthy,
             (negb (String.eqb v EmptyString)) eqn:Hv_truthy;
      simpl; rewrite ?andb_false_r; try done.
    rewrite andb_true_r.
    destruct (String.eqb_spec n "__proto__") as [->|Hproto].
    + case_bool_decide as Heq; [|done]. by injection Heq as <-.
    + case_bool_decide as Heq.
      * injection Heq as ->. by rewrite lookup_insert_eq.
      * rewrite lookup_insert_ne; [done|]. by intros ->.
Qed.

(** X13: [getUser] with a token that decodes sends one command, the lookup
    of the user the token names. Of the provider's answer it shows the
    user name as [sub]; the attributes [email], [given_name] and
    [family_name], each with the value of the last entry of that name that
    has a name and a value, neither empty; [emailVerified], true exactly
    when that value of [email_verified] is the string [true]; [enabled],
    false when the provider does not say; the status and the two dates. A
    [UserNotFoundException] is answered 404, any other error 500. *)
Theorem getUser_outcome (event : Lambda.APIGatewayProxyEvent) (w : world)
    (token : string) (decoded : value)
    (reply : result Cognito.AdminGetUserOutput) (p : provider_state) :
  getAuthHeader event = Ok token ->
  jwt_decode (VStr token) false = Ok decoded ->
  nullish decoded = false ->
  provider_send Cognito.AdminGetUserOutput
    (Cognito.AdminGetUserCommand USER_POOL_ID (token_user decoded))
    (cognito w) = (reply, p) ->
  getUser USER_POOL_ID event w =
    let w' :=
      with_sent w p
        [Cognito.Call (Cognito.AdminGetUserCommand USER_POOL_ID (token_user decoded))] in
    match reply with
    | Ok output =>
        let listed := default [] (Cognito.UserAttributes output) in
        (Ok (createResponse 200
               (VObj [("message", VStr "User retrieved successfully");
                      ("data",
                       VObj [("sub", of_string (Cognito.Username output));
                             ("email", of_string (last_attribute "email" listed));
                             ("firstName", of_string (last_attribute "given_name" listed));
                             ("lastName", of_string (last_attribute "family_name" listed));
                             ("emailVerified",
                              VBool (bool_decide
                                       (last_attribute "email_verified" listed =
                                        Some "true")));
                             ("enabled",
                              VBool (bool_decide (Cognito.Enabled output = Some true)));
                             ("userStatus", of_string (Cognito.UserStatus output));
                             ("createdDate", of_date (Cognito.UserCreateDate output));
                             ("lastModifiedDate",
                              of_date (Cognito.UserLastModifiedDate output))])])
               ∅),
         w')
    | Throw error =>
        (Ok (if is_named error "UserNotFoundException"
             then createErrorResponse 404 "USER_NOT_FOUND" "User not found" VUndefined
             else createErrorResponse 500 "INTERNAL_ERROR" "Internal server error"
                    (VStr (errorMessage error))),
         console_error "Get user error:" error w')
    end.
Proof.
  intros Hheader Hdecoded Hnullish Hsend.
  destruct (getUserFromToken_decoded _ _ Hdecoded Hnullish) as (sub & Huser).
  unfold getUser, try_catch, getUser_try, mbind, io_bind, mret, io_ret, lift.
  rewrite Hheader, Huser. simpl. rewrite (send_run _ _ _ _ Hsend).
  destruct reply as [output|error].
  - rewrite !set_attribute_fold by done. rewrite !lookup_empty.
    assert (default false (Cognito.Enabled output) =
            bool_decide (Cognito.Enabled output = Some true)) as ->.
    { by destruct (Cognito.Enabled output) as [[]|]. }
    by destruct (last_attribute "email" _), (last_attribute "given_name" _),
                (last_attribute "family_name" _), (last_attribute "email_verified" _).
  - destruct error as [name message|v]; [|done]. simpl.
    by destruct (String.eqb name "UserNotFoundException").
Qed.

(** ** What no request can make a handler do *)

(** X14: no request makes a handler send the provider more than its
    share: [register] sends at most two commands, [logout] and [validate]
    none, every other handler at most one; and what was sent before stays
    in the log. *)
Theorem handlers_send_at_most
    (handler : Lambda.APIGatewayProxyEvent -> io ApiResponse) (budget : nat)
    (event : Lambda.APIGatewayProxyEvent) (w : world) :
  (handler, budget) ∈
    [ (login USER_POOL_ID USER_POOL_CLIENT_ID, 1%nat);
      (register USER_POOL_ID, 2%nat);
      (refreshToken USER_POOL_ID USER_POOL_CLIENT_ID, 1%nat);
      (fun _ => logout, 0%nat);
      (validate, 0%nat);
      (getUser USER_POOL_ID, 1%nat);
      (updateUser USER_POOL_ID, 1%nat);
      (deleteUser USER_POOL_ID, 1%nat);
      (changePassword USER_POOL_ID, 1%nat) ] ->
  ∃ commands : list Cognito.call,
    sent (handler event w).2 = sent w ++ commands ∧ (length commands ≤ budget)%nat.
Proof.
  intros Hin. revert w. change (sends_at_most budget (handler event)).
  repeat (apply elem_of_cons in Hin as [[= -> ->] | Hin]);
    [ .. | by apply elem_of_nil in Hin ].
  all: apply sends_try_catch.
  all: unfold login_try, register_try, refreshToken_try, logout_try, validate_try,
         getUser_try, updateUser_try, deleteUser_try, changePassword_try.
  all: try (apply quiet_sends; quiet_steps; fail).
  all: sends_steps.
Qed.

(** X15: outside [validate] no handler reads the clock. The same request
    in the same world at another time gets the same answer and has the same
    effects, so the profile handlers treat an expired token like a fresh
    one. *)
Theorem handlers_ignore_clock
    (handler : Lambda.APIGatewayProxyEvent -> io ApiResponse)
    (event : Lambda.APIGatewayProxyEvent) (w : world) (t : Z) :
  handler ∈
    [ login USER_POOL_ID USER_POOL_CLIENT_ID;
      register USER_POOL_ID;
      refreshToken USER_POOL_ID USER_POOL_CLIENT_ID;
      (fun _ => logout);
      getUser USER_POOL_ID;
      updateUser USER_POOL_ID;
      deleteUser USER_POOL_ID;
      changePassword USER_POOL_ID ] ->
  handler event (set_clock t w) =
    ((handler event w).1, set_clock t (handler event w).2).
Proof.
  intros Hin. revert w t. change (clock_blind (handler event)).
  repeat (apply elem_of_cons in Hin as [-> | Hin]);
    [ .. | by apply elem_of_nil in Hin ].
  all: apply clock_blind_try_catch.
  all: unfold login_try, register_try, refreshToken_try, logout_try,
         getUser_try, updateUser_try, deleteUser_try, changePassword_try.
  all: clock_blind_steps.
Qed.

(** X16: an exception out of [jwt.decode] does not escape [validate]. It
    is answered 401 [INVALID_TOKEN] when it is a [JsonWebTokenError], 401
    [TOKEN_EXPIRED] when it is a [TokenExpiredError], and 500
    [INTERNAL_ERROR] with its message otherwise, and it is written to the
    console. *)
Theorem validate_decode_throws (event : Lambda.APIGatewayProxyEvent) (w : world)
    (body token : value) (error : thrown) :
  parseRequestBody event = Ok body ->
  get body "token" = Ok token ->
  truthy token = true ->
  (jwt_decode token true = Throw error ∨
   ∃ decodedHeader : value,
     jwt_decode token true = Ok decodedHeader ∧ truthy decodedHeader = true ∧
     jwt_decode token false = Throw error) ->
  validate event w =
    (Ok (if is_named error "JsonWebTokenError"
         then createErrorResponse 401 "INVALID_TOKEN" "Invalid token format" VUndefined
         else if is_named error "TokenExpiredError"
         then createErrorResponse 401 "TOKEN_EXPIRED" "Token has expired" VUndefined
         else createErrorResponse 500 "INTERNAL_ERROR" "Internal server error"
                (VStr (errorMessage error))),
     console_error "Token validation error:" error w).
Proof.
  intros Hbody Htoken Htruthy Hthrows.
  assert (validate_try event w = (Throw error, w)) as Hrun.
  { unfold validate_try, mbind, io_bind, mret, io_ret, lift.
    rewrite Hbody, Htoken, Htruthy. simpl.
    destruct Hthrows as [Hheader | (decodedHeader & Hheader & Hheader_truthy & Hdecoded)].
    - by rewrite Hheader.
    - rewrite Hheader, Hheader_truthy. simpl. by rewrite Hdecoded. }
  unfold validate, try_catch. rewrite Hrun.
  destruct error as [name message|v]; [|done]. simpl.
  destruct (String.eqb name "JsonWebTokenError"); [done|].
  by destruct (String.eqb name "TokenExpiredError").
Qed.

Lemma silent_ret {A : Type} (a : A) : silent (mret a).
Proof. by intros w. Qed.

Lemma silent_lift {A : Type} (r : result A) : silent (lift r).
Proof. by intros w. Qed.

Lemma silent_current_time : silent current_time.
Proof. by intros w. Qed.

Lemma silent_send {R : Type} (command : Cognito.command R) : silent (send command).
Proof.
  intros w. unfold send. by destruct (provider_send R command (cognito w)).
Qed.

Lemma silent_bind {A B : Type} (m : io A) (f : A -> io B) :
  silent m -> (∀ a : A, silent (f a)) -> silent (m ≫= f).
Proof.
  intros Hm Hf w. specialize (Hm w). unfold mbind, io_bind.
  destruct (m w) as [[a|e] w1]; simpl in *; [|done].
  by rewrite (Hf a w1).
Qed.

Ltac silent_steps :=
  repeat first
    [ apply silent_ret
    | apply silent_lift
    | apply silent_current_time
    | apply silent_send
    | apply silent_bind; [|intros ?]
    | match goal with
      | |- silent (if ?b then _ else _) => destruct b
      | |- silent (match ?x with _ => _ end) => destruct x
      end ].

Lemma try_catch_logs (body : io ApiResponse) (label : string)
    (catch : thrown -> ApiResponse) (w : world) :
  silent body ->
  stderr (try_catch body label catch w).2 =
    stderr w ++
    match (body w).1 with
    | Ok _ => []
    | Throw error => [(label, error)]
    end.
Proof.
  intros Hbody. specialize (Hbody w). unfold try_catch.
  destruct (body w) as [[r|e] w1]; simpl in *; rewrite Hbody; [|done].
  by rewrite app_nil_r.
Qed.

(** X17: a handler writes to the console exactly when its [try] block
    throws, and then one line: its own label and the error. Errors that a
    [catch] block maps to a 4xx answer are logged like any other; the 4xx
    answers built inside the [try] block are not. *)
Theorem handlers_log_failures
    (attempt handler : Lambda.APIGatewayProxyEvent -> io ApiResponse)
    (label : string) (event : Lambda.APIGatewayProxyEvent) (w : world) :
  (attempt, handler, label) ∈
    [ (login_try USER_POOL_ID USER_POOL_CLIENT_ID,
       login USER_POOL_ID USER_POOL_CLIENT_ID, "Login error:");
      (register_try USER_POOL_ID, register USER_POOL_ID, "Registration error:");
      (refreshToken_try USER_POOL_ID USER_POOL_CLIENT_ID,
       refreshToken USER_POOL_ID USER_POOL_CLIENT_ID, "Refresh token error:");
      (fun _ => logout_try, fun _ => logout, "Logout error:");
      (validate_try, validate, "Token validation error:");
      (getUser_try USER_POOL_ID, getUser USER_POOL_ID, "Get user error:");
      (updateUser_try USER_POOL_ID, updateUser USER_POOL_ID, "Update user error:");
      (deleteUser_try USER_POOL_ID, deleteUser USER_POOL_ID, "Delete user error:");
      (changePassword_try USER_POOL_ID, changePassword USER_POOL_ID,
       "Change password error:") ] ->
  stderr (handler event w).2 =
    stderr w ++
    match (attempt event w).1 with
    | Ok _ => []
    | Throw error => [(label, error)]
    end.
Proof.
  intros Hin.
  repeat (apply elem_of_cons in Hin as [[= -> -> ->] | Hin]);
    [ .. | by apply elem_of_nil in Hin ].
  all: apply try_catch_logs.
  all: unfold login_try, register_try, refreshToken_try, logout_try, validate_try,
         getUser_try, updateUser_try, deleteUser_try, changePassword_try.
  all: silent_steps.
Qed.

End MoreHandlerFacts.

(** * The handlers at work *)

#[local] Existing Instance Example.runtime.
#[local] Existing Instance Example.pool.

Lemma validate_decoded_payload_witness :
  validate
    (Example.request (Some (Example.token_body Example.id_token)) []) Example.start =
  (Ok (createResponse 200
         (VObj [("message", VStr "Token is valid");
                ("data", VObj [("sub", VStr "u1");
                               ("email", VStr "a@b.c");
                               ("tokenType", VStr "id");
                               ("expiresAt", VNum (number_of_Z 2000));
                               ("issuedAt", VNum (number_of_Z 1000))])])
         ∅),
   Example.start).
Proof.
  apply (validate_decoded_payload
           (Example.request (Some (Example.token_body Example.id_token)) [])
           Example.start Example.id_payload false).
  - exists (VObj [("token", VStr Example.id_token)]), (VStr Example.id_token),
      (VObj [("header", Example.jose_header); ("payload", Example.id_payload);
             ("signature", VStr "c2ln")]).
    repeat split; vm_compute; reflexivity.
  - vm_compute. reflexivity.
Defined.

Lemma validate_without_exp_witness :
  validate
    (Example.request (Some (Example.token_body Example.access_token_without_exp)) [])
    Example.start =
  (Ok (createResponse 200
         (VObj [("message", VStr "Token is valid");
                ("data", VObj [("sub", VStr "u1");
                               ("email", VStr "a@b.c");
                               ("tokenType", VStr "access");
                               ("expiresAt", VUndefined);
                               ("issuedAt", VUndefined)])])
         ∅),
   Example.start).
Proof.
  refine (proj2 (validate_without_exp
           (Example.request (Some (Example.token_body Example.access_token_without_exp)) [])
           Example.start Example.access_payload_without_exp _ eq_refl eq_refl)).
  - exists (VObj [("token", VStr Example.access_token_without_exp)]),
      (VStr Example.access_token_without_exp),
      (VObj [("header", Example.jose_header);
             ("payload", Example.access_payload_without_exp);
             ("signature", VStr "c2ln")]).
    repeat split; vm_compute; reflexivity.
Defined.

Lemma handlers_contain_failures_witness :
  ∃ (response : ApiResponse) (w' : world),
    login example_pool_id example_client_id (Example.request (Some "null") [])
      Example.start = (Ok response, w') ∧
    well_formed response ∧
    response =
      createErrorResponse 500 "INTERNAL_ERROR" "Internal server error"
        (VStr "Cannot read properties of null (reading 'email')").
Proof.
  destruct (handlers_contain_failures example_pool_id example_client_id
              (login_try example_pool_id example_client_id)
              (login example_pool_id example_client_id)
              (Example.request (Some "null") []) Example.start)
    as (response & w' & Hrun & Hwf & Hfail).
  - apply list_elem_of_here.
  - exists response, w'. split; [exact Hrun|]. split; [exact Hwf|].
    apply (Hfail (JsError "TypeError" "Cannot read properties of null (reading 'email')")
                 Example.start).
    + vm_compute. reflexivity.
    + intros Hin. unfold taxonomy in Hin.
      repeat (apply elem_of_cons in Hin as [Hin | Hin]; [discriminate Hin|]).
      by apply elem_of_nil in Hin.
Defined.

Lemma register_marks_email_verified_witness :
  ∃ (email password : value) (userAttributes : list (string * value)),
    sent (register example_pool_id
            (Example.request (Some Example.credentials_body) []) Example.start).2 =
      [ Cognito.Call (Cognito.AdminCreateUserCommand example_pool_id email
                        userAttributes "SUPPRESS" password);
        Cognito.Call (Cognito.AdminSetUserPasswordCommand example_pool_id email
                        password true) ] ∧
    ("email_verified", VStr "true") ∈ userAttributes.
Proof.
  eassert (register example_pool_id
             (Example.request (Some Example.credentials_body) []) Example.start =
           (Ok _, _)) as Hrun by (vm_compute; reflexivity).
  destruct (register_marks_email_verified example_pool_id _ _ _ _ Hrun eq_refl)
    as (email & password & userAttributes & Hsent & Hin).
  exists email, password, userAttributes. split; [|exact Hin].
  rewrite Hrun. exact Hsent.
Defined.

(** C4 as stated fails in two ways, and each stands when the other is
    ruled out. A well-formed bearer header can carry a token that does not
    decode: [jwt.decode] gives [null], reading [sub] from it throws, and
    the answer is the 500 [INTERNAL_ERROR] response, although the body is
    the empty object. And with a token that decodes, the body [null] has
    none of the three fields, yet reading [firstName] from it throws, and
    the answer is again 500. *)
Lemma updateUser_undecodable_token_or_null_body :
  ¬ (∀ (event : Lambda.APIGatewayProxyEvent) (w : world) (token : string)
       (body : value),
       getAuthHeader event = Ok token ->
       parseRequestBody event = Ok body ->
       nullish body = false ->
       own_property body "firstName" = None ->
       own_property body "lastName" = None ->
       own_property body "email" = None ->
       ∃ w' : world,
         updateUser example_pool_id event w =
           (Ok (createErrorResponse 400 "NO_UPDATES" "No valid fields to update"
                  VUndefined), w') ∧
         sent w' = sent w) ∧
  ¬ (∀ (event : Lambda.APIGatewayProxyEvent) (w : world) (token : string)
       (decoded body : value),
       getAuthHeader event = Ok token ->
       jwt_decode (VStr token) false = Ok decoded ->
       nullish decoded = false ->
       parseRequestBody event = Ok body ->
       own_property body "firstName" = None ->
       own_property body "lastName" = None ->
       own_property body "email" = None ->
       ∃ w' : world,
         updateUser example_pool_id event w =
           (Ok (createErrorResponse 400 "NO_UPDATES" "No valid fields to update"
                  VUndefined), w') ∧
         sent w' = sent w).
Proof.
  split; intros claim.
  - destruct (claim (Example.request None [("Authorization", "Bearer abc")])
                    Example.start "abc" (VObj [])
                    eq_refl eq_refl eq_refl eq_refl eq_refl eq_refl)
      as (w' & Hrun & _).
    vm_compute in Hrun. discriminate Hrun.
  - destruct (claim (Example.request (Some "null")
                       [("Authorization", "Bearer " ++ Example.id_token)%string])
                    Example.start Example.id_token Example.id_payload VNull
                    eq_refl eq_refl eq_refl eq_refl eq_refl eq_refl eq_refl)
      as (w' & Hrun & _).
    vm_compute in Hrun. discriminate Hrun.
Qed.

Lemma updateUser_no_updates_witness :
  updateUser example_pool_id
    (Example.request None [("Authorization", "Bearer " ++ Example.id_token)%string])
    Example.start =
  (Ok (createErrorResponse 400 "NO_UPDATES" "No valid fields to update" VUndefined),
   Example.start).
Proof.
  apply (updateUser_no_updates example_pool_id
           (Example.request None [("Authorization", "Bearer " ++ Example.id_token)%string])
           Example.start Example.id_token Example.id_payload (VObj []));
    vm_compute; reflexivity.
Defined.

(** What the undecodable token leads to. *)
Example updateUser_undecodable_token_answer :
  (updateUser example_pool_id
     (Example.request None [("Authorization", "Bearer abc")]) Example.start).1 =
  Ok (createErrorResponse 500 "INTERNAL_ERROR" "Internal server error"
        (VStr "Cannot read properties of null (reading 'sub')")).
Proof. vm_compute. reflexivity. Qed.

(** What the body [null] leads to. *)
Example updateUser_null_body_answer :
  (updateUser example_pool_id
     (Example.request (Some "null")
        [("Authorization", "Bearer " ++ Example.id_token)%string])
     Example.start).1 =
  Ok (createErrorResponse 500 "INTERNAL_ERROR" "Internal server error"
        (VStr "Cannot read properties of null (reading 'firstName')")).
Proof. vm_compute. reflexivity. Qed.

(** The sibling check in [validate]: a request without a token is answered
    with 400. *)
Example validate_missing_token :
  (validate (Example.request (Some "{}") []) Example.start).1 =
  Ok (createErrorResponse 400 "MISSING_TOKEN" "Token is required" VUndefined).
Proof. vm_compute. reflexivity. Qed.

(** C3 on the code: a request that lacks its required fields is answered
    with the 500 [INTERNAL_ERROR] response, not with a 400. The error that
    [validateRequiredFields] throws has the name [Error], for which no
    [catch] block has a case. *)
Theorem missing_fields_answer_500 :
  (login example_pool_id example_client_id
     (Example.request (Some "{}") []) Example.start).1 =
  Ok (createErrorResponse 500 "INTERNAL_ERROR" "Internal server error"
        (VStr "Missing required fields: email, password")) ∧
  (register example_pool_id
     (Example.request (Some "{}") []) Example.start).1 =
  Ok (createErrorResponse 500 "INTERNAL_ERROR" "Internal server error"
        (VStr "Missing required fields: email, password")) ∧
  (refreshToken example_pool_id example_client_id
     (Example.request (Some "{}") []) Example.start).1 =
  Ok (createErrorResponse 500 "INTERNAL_ERROR" "Internal server error"
        (VStr "Missing required fields: refreshToken")) ∧
  (changePassword example_pool_id
     (Example.request (Some "{}")
        [("Authorization", "Bearer " ++ Example.id_token)%string])
     Example.start).1 =
  Ok (createErrorResponse 500 "INTERNAL_ERROR" "Internal server error"
        (VStr "Missing required fields: oldPassword, newPassword")) ∧
  statusCode
    (createErrorResponse 500 "INTERNAL_ERROR" "Internal server error"
       (VStr "Missing required fields: email, password")) = 500.
Proof. repeat split; vm_compute; reflexivity. Qed.

(** * More of the handlers at work *)

Lemma validateRequiredFields_ok_iff_witness :
  validateRequiredFields (VObj [("email", VStr "a@b.c")]) ["email"] = Ok tt.
Proof.
  apply (proj2 (validateRequiredFields_ok_iff (VObj [("email", VStr "a@b.c")]) ["email"])).
  intros field Hfield. apply list_elem_of_In in Hfield. simpl in Hfield.
  destruct Hfield as [<- | []]. exists (VStr "a@b.c"). split; reflexivity.
Defined.

Lemma validate_early_exits_witness :
  validate (Example.request (Some "{}") []) Example.start =
    (Ok (createErrorResponse 400 "MISSING_TOKEN" "Token is required" VUndefined),
     Example.start).
Proof.
  refine (proj1 (validate_early_exits (Example.request (Some "{}") []) Example.start
                   (VObj []) VUndefined _ _) _);
    vm_compute; reflexivity.
Defined.

Lemma malformed_body_answers_500_witness :
  login example_pool_id example_client_id
    (Example.request (Some "{email:") []) Example.start =
  (Ok (createErrorResponse 500 "INTERNAL_ERROR" "Internal server error"
         (VStr "Invalid JSON in request body")),
   console_error "Login error:" (Error "Invalid JSON in request body") Example.start).
Proof.
  apply (malformed_body_answers_500 example_pool_id example_client_id
           (login example_pool_id example_client_id) "Login error:"
           (Example.request (Some "{email:") []) Example.start
           (Error "Invalid JSON in request body")).
  - vm_compute. reflexivity.
  - apply list_elem_of_here.
Defined.

Lemma unusable_header_answers_500_witness :
  getUser example_pool_id (Example.request None []) Example.start =
  (Ok (createErrorResponse 500 "INTERNAL_ERROR" "Internal server error"
         (VStr "Authorization header is required")),
   console_error "Get user error:" (Error "Authorization header is required")
     Example.start).
Proof.
  apply (unusable_header_answers_500 example_pool_id
           (getUser example_pool_id) "Get user error:"
           (Example.request None []) Example.start
           (Error "Authorization header is required")).
  - vm_compute. reflexivity.
  - apply list_elem_of_here.
Defined.

Lemma undecodable_token_answers_500_witness :
  deleteUser example_pool_id (Example.request None (Forms.bearer "abc")) Example.start =
  (Ok (createErrorResponse 500 "INTERNAL_ERROR" "Internal server error"
         (VStr "Cannot read properties of null (reading 'sub')")),
   console_error "Delete user error:"
     (JsError "TypeError" "Cannot read properties of null (reading 'sub')")
     Example.start).
Proof.
  rewrite (undecodable_token_answers_500 example_pool_id
             (deleteUser example_pool_id) "Delete user error:"
             (Example.request None (Forms.bearer "abc")) Example.start "abc" VNull)
    by first [ vm_compute; reflexivity
             | do 2 apply list_elem_of_further; apply list_elem_of_here ].
  vm_compute. reflexivity.
Defined.

Lemma deleteUser_outcome_witness :
  (deleteUser example_pool_id
     (Example.request None (Forms.bearer Example.id_token)) Forms.populated).1 =
  Ok (createResponse 200 (VObj [("message", VStr "User deleted successfully")]) ∅) ∧
  cognito
    (deleteUser example_pool_id
       (Example.request None (Forms.bearer Example.id_token)) Forms.populated).2 = [].
Proof.
  rewrite (deleteUser_outcome example_pool_id
             (Example.request None (Forms.bearer Example.id_token)) Forms.populated
             Example.id_token Example.id_payload (Ok tt) [])
    by (vm_compute; reflexivity).
  split; reflexivity.
Defined.

Lemma updateUser_outcome_witness :
  (updateUser example_pool_id
     (Example.request (Some Example.credentials_body) (Forms.bearer Example.id_token))
     Forms.populated).1 =
  Ok (createResponse 200 (VObj [("message", VStr "User updated successfully")]) ∅) ∧
  sent
    (updateUser example_pool_id
       (Example.request (Some Example.credentials_body) (Forms.bearer Example.id_token))
       Forms.populated).2 =
  [Cognito.Call (Cognito.AdminUpdateUserAttributesCommand example_pool_id
                   (VStr "a@b.c") [("email", VStr "a@b.c")])].
Proof.
  rewrite (updateUser_outcome example_pool_id
             (Example.request (Some Example.credentials_body)
                (Forms.bearer Example.id_token))
             Forms.populated Example.id_token Example.id_payload
             (VObj [("email", VStr "a@b.c"); ("password", VStr "pw")]) (Ok tt)
             ["a@b.c"])
    by (vm_compute; first [reflexivity | discriminate]).
  split; reflexivity.
Defined.

Lemma login_outcome_witness :
  (login example_pool_id example_client_id
     (Example.request (Some Example.credentials_body) []) Example.start).1 =
  Ok (createResponse 200
        (VObj [("message", VStr "Login successful");
               ("data",
                VObj [("accessToken", VStr Example.access_token_without_exp);
                      ("idToken", VStr Example.id_token);
                      ("refreshToken", VStr Example.refresh_token);
                      ("expiresIn", VNum (number_of_Z 3600));
                      ("tokenType", VStr "Bearer")])])
        ∅).
Proof.
  rewrite (login_outcome example_pool_id example_client_id
             (Example.request (Some Example.credentials_body) []) Example.start
             (VObj [("email", VStr "a@b.c"); ("password", VStr "pw")])
             (Ok {| Cognito.AuthenticationResult := Some Example.tokens |}) [])
    by (vm_compute; reflexivity).
  reflexivity.
Defined.

Lemma register_outcome_witness :
  register example_pool_id
    (Example.request (Some Example.credentials_body) []) Forms.populated =
  (Ok (createErrorResponse 409 "USER_EXISTS" "User already exists" VUndefined),
   console_error "Registration error:"
     (JsError "UsernameExistsException" "User account already exists")
     (with_sent Forms.populated ["a@b.c"]
        [Cognito.Call
           (Cognito.AdminCreateUserCommand example_pool_id (VStr "a@b.c")
              [("email", VStr "a@b.c"); ("email_verified", VStr "true")]
              "SUPPRESS" (VStr "pw"))])).
Proof.
  pose proof (register_outcome example_pool_id
                (Example.request (Some Example.credentials_body) []) Forms.populated
                (VObj [("email", VStr "a@b.c"); ("password", VStr "pw")])
                (Throw (JsError "UsernameExistsException" "User account already exists"))
                (Ok tt) ["a@b.c"] ["a@b.c"]) as Houtcome.
  simpl in Houtcome. rewrite Houtcome by (vm_compute; reflexivity).
  reflexivity.
Defined.

Lemma getUser_outcome_witness :
  (getUser example_pool_id
     (Example.request None (Forms.bearer Example.id_token)) Forms.populated).1 =
  Ok (createResponse 200
        (VObj [("message", VStr "User retrieved successfully");
               ("data",
                VObj [("sub", VStr "a@b.c");
                      ("email", VStr "a@b.c");
                      ("firstName", VUndefined);
                      ("lastName", VUndefined);
                      ("emailVerified", VBool true);
                      ("enabled", VBool true);
                      ("userStatus", VStr "CONFIRMED");
                      ("createdDate", VDate (number_of_Z 0));
                      ("lastModifiedDate", VDate (number_of_Z 0))])])
        ∅).
Proof.
  erewrite (getUser_outcome example_pool_id
              (Example.request None (Forms.bearer Example.id_token)) Forms.populated
              Example.id_token Example.id_payload (Ok _) ["a@b.c"])
    by (vm_compute; reflexivity).
  reflexivity.
Defined.

Lemma handlers_send_at_most_witness :
  ∃ commands : list Cognito.call,
    sent (register example_pool_id
            (Example.request (Some Example.credentials_body) []) Example.start).2 =
      sent Example.start ++ commands ∧
    (length commands ≤ 2)%nat.
Proof.
  apply (handlers_send_at_most example_pool_id example_client_id
           (register example_pool_id) 2
           (Example.request (Some Example.credentials_body) []) Example.start).
  apply list_elem_of_further, list_elem_of_here.
Defined.

Lemma handlers_ignore_clock_witness :
  deleteUser example_pool_id (Example.request None (Forms.bearer Example.id_token))
    (set_clock 2000000000000 Forms.populated) =
  ((deleteUser example_pool_id (Example.request None (Forms.bearer Example.id_token))
      Forms.populated).1,
   set_clock 2000000000000
     (deleteUser example_pool_id (Example.request None (Forms.bearer Example.id_token))
        Forms.populated).2).
Proof.
  apply (handlers_ignore_clock example_pool_id example_client_id
           (deleteUser example_pool_id)).
  do 6 apply list_elem_of_further. apply list_elem_of_here.
Defined.

Lemma changePassword_outcome_witness :
  (changePassword (rt := Forms.runtime) example_pool_id
     (Example.request (Some Forms.password_body) (Forms.bearer Example.id_token))
     Forms.populated).1 =
  Ok (createResponse (rt := Forms.runtime) 200
        (VObj [("message", VStr "Password changed successfully")]) ∅) ∧
  sent
    (changePassword (rt := Forms.runtime) example_pool_id
       (Example.request (Some Forms.password_body) (Forms.bearer Example.id_token))
       Forms.populated).2 =
  [Cognito.Call (Cognito.AdminSetUserPasswordCommand example_pool_id
                   (VStr "a@b.c") (VStr "new") true)].
Proof.
  rewrite (changePassword_outcome (rt := Forms.runtime) example_pool_id
             (Example.request (Some Forms.password_body) (Forms.bearer Example.id_token))
             Forms.populated Example.id_token Example.id_payload
             (VObj [("oldPassword", VStr "old"); ("newPassword", VStr "new")])
             (Ok tt) ["a@b.c"])
    by (vm_compute; reflexivity).
  split; reflexivity.
Defined.

Lemma refreshToken_outcome_witness :
  (refreshToken (rt := Forms.runtime) example_pool_id example_client_id
     (Example.request (Some Forms.refresh_body) []) Example.start).1 =
  Ok (createResponse (rt := Forms.runtime) 200
        (VObj [("message", VStr "Token refreshed successfully");
               ("data",
                VObj [("accessToken", VStr Example.access_token_without_exp);
                      ("idToken", VStr Example.id_token);
                      ("expiresIn", VNum (number_of_Z 3600));
                      ("tokenType", VStr "Bearer")])])
        ∅).
Proof.
  rewrite (refreshToken_outcome (rt := Forms.runtime) example_pool_id example_client_id
             (Example.request (Some Forms.refresh_body) []) Example.start
             (VObj [("refreshToken", VStr Example.refresh_token)])
             (Ok {| Cognito.AuthenticationResult := Some Example.tokens |}) [])
    by (vm_compute; reflexivity).
  reflexivity.
Defined.

Lemma handlers_log_failures_witness :
  stderr (validate (Example.request (Some "{}") []) Example.start).2 = [] ∧
  stderr (login example_pool_id example_client_id
            (Example.request (Some "{}") []) Example.start).2 =
    [("Login error:", Error "Missing required fields: email, password")].
Proof.
  split.
  - rewrite (handlers_log_failures example_pool_id example_client_id
               validate_try validate "Token validation error:")
      by (do 4 apply list_elem_of_further; apply list_elem_of_here).
    vm_compute. reflexivity.
  - rewrite (handlers_log_failures example_pool_id example_client_id
               (login_try example_pool_id example_client_id)
               (login example_pool_id example_client_id) "Login error:")
      by apply list_elem_of_here.
    vm_compute. reflexivity.
Defined.

Lemma validate_decode_throws_witness :
  validate (rt := Forms.runtime)
    (Example.request (Some (Example.token_body Forms.broken_token)) []) Example.start =
  (Ok (createErrorResponse (rt := Forms.runtime) 500 "INTERNAL_ERROR"
         "Internal server error" (VStr "Unexpected token o in JSON at position 1")),
   console_error "Token validation error:"
     (JsError "SyntaxError" "Unexpected token o in JSON at position 1") Example.start).
Proof.
  rewrite (validate_decode_throws (rt := Forms.runtime)
             (Example.request (Some (Example.token_body Forms.broken_token)) [])
             Example.start (VObj [("token", VStr Forms.broken_token)])
             (VStr Forms.broken_token)
             (JsError "SyntaxError" "Unexpected token o in JSON at position 1"))
    by first [ vm_compute; reflexivity | left; vm_compute; reflexivity ].
  reflexivity.
Defined.
